(** * hostweb: the RFID registration-to-scan linking protocol of [app.py]

    A shallow embedding of the three request handlers of [app.py]
    ([register], [check_status], [link_rfid]) and of the helper
    [link_uid_to_student], with the process-wide dictionary
    [WAITING_FOR_SCAN], the per-browser Flask [session] and the calls made
    on the Google worksheet written out as explicit state.

    Conventions of the embedding.
    - A Python [str] is a [string]; a character is read as the code point
      of the same number (0..255).
    - [time.time()] is a float, an IEEE 754 binary64 number.  A clock
      reading is the rational that the float denotes; comparing two
      readings is exact on floats, and the one subtraction of the source,
      in [check_status], is [Float.sub]: the exact difference rounded to
      the nearest binary64 number, ties to even.
    - What the outside world does during one request (is the worksheet
      reachable, does a call on it raise, what does the clock read) is an
      explicit input [Env] of every handler.
    - [print] calls only write to the console and are left out. *)

From Stdlib Require Import Ascii String NArith ZArith QArith Lqa.
From stdpp Require Import base list strings gmap.

Close Scope Q_scope.
Open Scope string_scope.
Open Scope list_scope.

(** ** Python string primitives *)

Module Py.

Definition ord (c : ascii) : N := N_of_ascii c.

(** [str.isspace] on one character, for the code points below 256:
    TAB..CR, FS..US, SPACE, NEL and NO-BREAK SPACE. *)
Definition isspace (c : ascii) : bool :=
  let n := ord c in
  ((9 <=? n) && (n <=? 13) || (28 <=? n) && (n <=? 32)
   || (n =? 133) || (n =? 160))%N.

(** [str.isdigit] on one character, for the code points below 256: the
    decimal digits and the superscripts two, three and one. *)
Definition isdigit (c : ascii) : bool :=
  let n := ord c in
  ((48 <=? n) && (n <=? 57) || (n =? 178) || (n =? 179) || (n =? 185))%N.

Definition isdecimal (c : ascii) : bool :=
  let n := ord c in ((48 <=? n) && (n <=? 57))%N.

Fixpoint lstrip (s : string) : string :=
  match s with
  | EmptyString => EmptyString
  | String c s' => if isspace c then lstrip s' else s
  end.

Fixpoint rstrip (s : string) : string :=
  match s with
  | EmptyString => EmptyString
  | String c s' =>
      match rstrip s' with
      | EmptyString => if isspace c then EmptyString else String c EmptyString
      | r => String c r
      end
  end.

(** [s.strip()] *)
Definition strip (s : string) : string := rstrip (lstrip s).

(** [''.join(filter(pred, s))] *)
Fixpoint filter (pred : ascii -> bool) (s : string) : string :=
  match s with
  | EmptyString => EmptyString
  | String c s' => if pred c then String c (filter pred s') else filter pred s'
  end.

Fixpoint all (pred : ascii -> bool) (s : string) : bool :=
  match s with
  | EmptyString => true
  | String c s' => pred c && all pred s'
  end.

Fixpoint decimal_value (acc : N) (s : string) : N :=
  match s with
  | EmptyString => acc
  | String c s' => decimal_value (10 * acc + (ord c - 48))%N s'
  end.

(** The outcome of a call that may raise: the value returned, or the
    text of the exception. *)
Inductive result (A : Type) : Type :=
| Returns (a : A)
| Raises (e : string).
#[global] Arguments Returns {A} a.
#[global] Arguments Raises {A} e.

(** [int(s)] on a string of [isdigit] characters: the decimal value, or
    [ValueError] when the string is empty or holds a superscript digit
    (the interpreter's limit on the length of the literal is not
    modelled). *)
Definition int (s : string) : result N :=
  match s with
  | EmptyString => Raises "invalid literal for int() with base 10: ''"
  | _ =>
      if all isdecimal s then Returns (decimal_value 0 s)
      else Raises ("invalid literal for int() with base 10: '" +:+ s +:+ "'")
  end.

(** Truth value of a string: [not s] holds for the empty string only. *)
Definition truthy (s : string) : bool :=
  match s with EmptyString => false | _ => true end.

End Py.

(** ** The dictionary [WAITING_FOR_SCAN]

    A Python [dict] keeps its keys in insertion order, and [min] over a
    dictionary returns the first of the smallest keys in that order, so the
    dictionary is a list of bindings.  That a key is bound at most once is
    not built into the type: it is the invariant [Dict.wf], proved of every
    state the handlers can reach. *)

Module Dict.

Abbreviation dict V := (list (string * V)) (only parsing).

Definition keys {V} (d : dict V) : list string := d.*1.

(** [d.get(k)]; [k in d] is [is_Some (get k d)] *)
Fixpoint get {V} (k : string) (d : dict V) : option V :=
  match d with
  | [] => None
  | (k', v) :: d' => if decide (k' = k) then Some v else get k d'
  end.

Definition contains {V} (k : string) (d : dict V) : bool :=
  match get k d with Some _ => true | None => false end.

(** [d[k] = v]: a key already bound keeps its place and takes the new
    value, a new key is added at the end. *)
Fixpoint set {V} (k : string) (v : V) (d : dict V) : dict V :=
  match d with
  | [] => [(k, v)]
  | (k', v') :: d' =>
      if decide (k' = k) then (k', v) :: d' else (k', v') :: set k v d'
  end.

(** [d.pop(k)] on the dictionary (the value popped is [get k d]). *)
Fixpoint pop {V} (k : string) (d : dict V) : dict V :=
  match d with
  | [] => []
  | (k', v') :: d' => if decide (k' = k) then d' else (k', v') :: pop k d'
  end.

Definition wf {V} (d : dict V) : Prop := NoDup (keys d).

End Dict.

(** ** Python floats

    Subtraction of binary64 numbers, on the rationals they denote: 53 bits
    of precision, least exponent -1074 (the subnormal range), rounding to
    nearest with ties to even.  A difference too large for binary64 is
    positive or negative infinity in Python and a finite rational of the
    same sign here; compared with [TIMEOUT_SECONDS] the two agree. *)

Module Float.

Definition precision : Z := 53.
Definition emin : Z := (-1074)%Z.

(** [n / d] rounded to the nearest integer, ties to even ([0 <= n],
    [0 < d]). *)
Definition div_half_even (n d : Z) : Z :=
  let q := (n / d)%Z in
  match (2 * (n mod d) ?= d)%Z with
  | Lt => q
  | Gt => (q + 1)%Z
  | Eq => if Z.even q then q else (q + 1)%Z
  end.

(** [2 ^ k <= n / d] *)
Definition pow2_le (k n d : Z) : bool :=
  if (0 <=? k)%Z then (2 ^ k * d <=? n)%Z else (d <=? n * 2 ^ (- k))%Z.

(** The integer part of the binary logarithm of [n / d] ([0 < n],
    [0 < d]). *)
Definition ilog2 (n d : Z) : Z :=
  let k := (Z.log2 n - Z.log2 d)%Z in
  if pow2_le k n d then k else (k - 1)%Z.

(** The binary64 number nearest to [n / d] ([0 < n], [0 < d]): a multiple
    of [2 ^ e], where [e] leaves 53 bits to the quotient. *)
Definition round_pos (n d : Z) : Q :=
  let e := Z.max (ilog2 n d - (precision - 1)) emin in
  if (0 <=? e)%Z
  then inject_Z (div_half_even n (d * 2 ^ e) * 2 ^ e)
  else Qmake (div_half_even (n * 2 ^ (- e)) d) (Z.to_pos (2 ^ (- e))).

Definition round (q : Q) : Q :=
  match Qnum q with
  | Z0 => 0%Q
  | Zpos n => round_pos (Zpos n) (Zpos (Qden q))
  | Zneg n => Qopp (round_pos (Zpos n) (Zpos (Qden q)))
  end.

(** [x - y] on floats *)
Definition sub (x y : Q) : Q := round (x - y).

End Float.

Definition Qltb (x y : Q) : bool := negb (Qle_bool y x).

(** [min(xs, key=key)]: the running minimum is replaced only by a strictly
    smaller element, so the first of the smallest wins; [None] stands for
    the [ValueError] on an empty sequence. *)
Fixpoint min_from {A} (key : A -> Q) (best : A) (xs : list A) : A :=
  match xs with
  | [] => best
  | x :: xs' => min_from key (if Qltb (key x) (key best) then x else best) xs'
  end.

Definition py_min {A} (key : A -> Q) (xs : list A) : option A :=
  match xs with
  | [] => None
  | x :: xs' => Some (min_from key x xs')
  end.

(** ** Data model *)

(** The value stored under a register number:
    [{'name': ..., 'timestamp': ..., 'row_index': ...}]. *)
Record Pending : Type := mkPending {
  name : string;
  timestamp : Q;
  row_index : N
}.

(** The two keys the handlers keep in the Flask [session] of a caller. *)
Record Session : Type := mkSession {
  waiting_reg_no : option string;
  linked_reg_no : option string
}.

Definition no_session : Session := mkSession None None.

(** A call made on the worksheet, with what it gave back. *)
Inductive SheetCall : Type :=
| append_row (row : list string) (res : Py.result string)
| update_cell (row col : N) (value : string) (res : Py.result unit).

(** The state of the server process: the global dictionary and the calls
    made on the worksheet so far, oldest first. *)
Record State : Type := mkState {
  WAITING_FOR_SCAN : Dict.dict Pending;
  sheet_calls : list SheetCall
}.

(** What the outside world does during one request.  An [append_row] whose
    answer lacks ['updates']['updatedRange'] ends in the same [except]
    clause as one that raises, and counts as one that raises. *)
Record Env : Type := mkEnv {
  sheet_up : bool;                        (* [get_sheet()] gets the worksheet *)
  append_row_result : Py.result string;   (* the ['updatedRange'] of the append *)
  update_cell_result : Py.result unit;
  cell_result : Py.result (option string);(* [sheet.cell(row, 2).value] *)
  clock : Q;                              (* [time.time()] *)
  today : string                          (* [datetime.now().strftime(...)] *)
}.

(** A JSON value as the handlers produce them: a string or [null]. *)
Inductive JValue : Type :=
| JStr (s : string)
| JNull.

Definition json (v : option string) : JValue :=
  match v with Some s => JStr s | None => JNull end.

(** [str(v)] inside an f-string *)
Definition fmt (v : option string) : string :=
  match v with Some s => s | None => "None" end.

(** What a request ends in: the [jsonify] body with its HTTP status, or an
    exception that no handler catches. *)
Inductive Outcome : Type :=
| Reply (body : list (string * JValue)) (http : N)
| Uncaught (exn : string).

(** A field of a decoded JSON object: missing, a string, or a value of
    another Python type. *)
Inductive Field : Type :=
| Absent
| FStr (s : string)
| FOther (type_name : string).

(** What [request.get_json()] returns: an object, of which only the key
    ['rfid_uid'] is read, or a value of another Python type. *)
Inductive Body : Type :=
| Object (rfid_uid : Field)
| NotObject (type_name : string).

Definition no_attribute (type_name attr : string) : string :=
  "AttributeError: '" +:+ type_name +:+ "' object has no attribute '" +:+ attr +:+ "'".

Definition TIMEOUT_SECONDS : Q := 300%Q.

(** ** The handlers *)

Definition log (c : SheetCall) (st : State) : State :=
  mkState (WAITING_FOR_SCAN st) (sheet_calls st ++ [c]).

Definition with_waiting (d : Dict.dict Pending) (st : State) : State :=
  mkState d (sheet_calls st).

(** [get_sheet()]: the worksheet, or [None] when anything on the way to it
    raised. *)
Definition get_sheet (env : Env) : bool := sheet_up env.

(** [link_uid_to_student(row_index, rfid_uid, name)]: the pair returned,
    and the state with the call on the worksheet recorded. *)
Definition link_uid_to_student (row : N) (rfid_uid : string) (student_name : string)
    (env : Env) (st : State) : (bool * option string) * State :=
  if negb (get_sheet env) then
    ((false, Some "Database connection failed."), st)
  else
    let RFID_UID_COLUMN := 3%N in
    match update_cell_result env with
    | Py.Raises e =>
        ((false, Some ("Failed to update database. Error: " +:+ e)),
         log (update_cell row RFID_UID_COLUMN rfid_uid (Py.Raises e)) st)
    | Py.Returns u =>
        let st' := log (update_cell row RFID_UID_COLUMN rfid_uid (Py.Returns u)) st in
        match cell_result env with
        | Py.Raises e =>
            ((false, Some ("Failed to update database. Error: " +:+ e)), st')
        | Py.Returns v => ((true, v), st')
        end
    end.

(** [POST /register] with the form fields [name] and [reg_no]
    ([request.form.get] gives [None] for a field that is not there). *)
Definition register (form_name form_reg_no : option string)
    (env : Env) (st : State) (session : Session) : Outcome * State * Session :=
  match form_name with
  | None => (Uncaught (no_attribute "NoneType" "strip"), st, session)
  | Some raw_name =>
  let name := Py.strip raw_name in
  match form_reg_no with
  | None => (Uncaught (no_attribute "NoneType" "strip"), st, session)
  | Some raw_reg_no =>
  let reg_no := Py.strip raw_reg_no in
  if negb (Py.truthy name) || negb (Py.truthy reg_no) then
    (Reply [("status", JStr "error");
            ("message", JStr "Name and Register Number are required.")] 200,
     st, session)
  else if negb (get_sheet env) then
    (Reply [("status", JStr "error");
            ("message", JStr "Could not connect to database.")] 500,
     st, session)
  else
    let data_row := [reg_no; name; EmptyString; today env] in
    let failed e st' :=
      (Reply [("status", JStr "error");
              ("message", JStr ("Failed to save registration data: " +:+ e))] 500,
       st', session) in
    match append_row_result env with
    | Py.Raises e => failed e (log (append_row data_row (Py.Raises e)) st)
    | Py.Returns added_range =>
        let st1 := log (append_row data_row (Py.Returns added_range)) st in
        match Py.int (Py.filter Py.isdigit added_range) with
        | Py.Raises e => failed e st1
        | Py.Returns new_row_index =>
            let entry := mkPending name (clock env) new_row_index in
            (Reply [("status", JStr "waiting");
                    ("message", JStr ("Student " +:+ name +:+
                                      " registered. Waiting for RFID scan..."));
                    ("reg_no", JStr reg_no)] 200,
             with_waiting (Dict.set reg_no entry (WAITING_FOR_SCAN st1)) st1,
             mkSession (Some reg_no) (linked_reg_no session))
        end
    end
  end
  end.

(** [GET /check_status/<reg_no>] *)
Definition check_status (reg_no : string)
    (env : Env) (st : State) (session : Session) : Outcome * State * Session :=
  match Dict.get reg_no (WAITING_FOR_SCAN st) with
  | None =>
      if decide (linked_reg_no session = Some reg_no) then
        (Reply [("status", JStr "linked");
                ("message", JStr "Card linked successfully!")] 200,
         st, mkSession (waiting_reg_no session) None)
      else
        (Reply [("status", JStr "error");
                ("message", JStr "Session expired or invalid.")] 200,
         st, session)
  | Some entry =>
      if Qltb TIMEOUT_SECONDS (Float.sub (clock env) (timestamp entry)) then
        (Reply [("status", JStr "timeout");
                ("message", JStr "Linking session timed out.")] 408,
         with_waiting (Dict.pop reg_no (WAITING_FOR_SCAN st)) st,
         mkSession None (linked_reg_no session))
      else
        (Reply [("status", JStr "waiting");
                ("message", JStr "Still waiting for RFID scan...")] 200,
         st, session)
  end.

(** The key function of the [min] in [link_rfid]:
    [lambda k: WAITING_FOR_SCAN[k]['timestamp']]. *)
Definition timestamp_of (d : Dict.dict Pending) (k : string) : Q :=
  match Dict.get k d with Some entry => timestamp entry | None => 0%Q end.

(** The reply of the [except Exception] clause of [link_rfid], which the
    [ValueError] of [min] and the [KeyError] of a lookup would reach. *)
Definition internal_error : Outcome :=
  Reply [("status", JStr "error");
         ("message", JStr "Internal server error during linking.")] 500.

(** [POST /link_rfid] with the decoded JSON body [data]; [oldest_reg_no] is
    the local [waiting_reg_no] of the source. *)
Definition link_rfid (data : Body)
    (env : Env) (st : State) (session : Session) : Outcome * State * Session :=
  match data with
  | NotObject ty => (Uncaught (no_attribute ty "get"), st, session)
  | Object (FOther ty) => (Uncaught (no_attribute ty "strip"), st, session)
  | Object field =>
  let rfid_uid := Py.strip (match field with FStr s => s | _ => EmptyString end) in
  match WAITING_FOR_SCAN st with
  | [] =>
      (Reply [("status", JStr "error");
              ("message", JStr "No active linking session found.")] 404,
       st, session)
  | _ =>
  match py_min (timestamp_of (WAITING_FOR_SCAN st)) (Dict.keys (WAITING_FOR_SCAN st)) with
  | None => (internal_error, st, session)
  | Some oldest_reg_no =>
  match Dict.get oldest_reg_no (WAITING_FOR_SCAN st) with
  | None => (internal_error, st, session)
  | Some student_data =>
      let row_to_update := row_index student_data in
      let student_name := name student_data in
      let '((success, result_name), st1) :=
        link_uid_to_student row_to_update rfid_uid student_name env st in
      if success then
        (Reply [("status", JStr "linked");
                ("name", json result_name);
                ("register_number", JStr oldest_reg_no);
                ("message", JStr ("Card linked to " +:+ fmt result_name))] 200,
         with_waiting (Dict.pop oldest_reg_no (WAITING_FOR_SCAN st1)) st1,
         mkSession (waiting_reg_no session) (Some oldest_reg_no))
      else
        (Reply [("status", JStr "error"); ("message", json result_name)] 500,
         st1, session)
  end
  end
  end
  end.

(** ** The server and its callers

    Every caller (a browser, the scanner board) holds its own Flask
    session, the signed cookie it sends back with each request; a caller
    that never got one holds the empty session. *)

Inductive Request : Type :=
| POST_register (form_name form_reg_no : option string)
| GET_check_status (reg_no : string)
| POST_link_rfid (data : Body).

Definition handle (req : Request) : Env -> State -> Session -> Outcome * State * Session :=
  match req with
  | POST_register n r => register n r
  | GET_check_status r => check_status r
  | POST_link_rfid data => link_rfid data
  end.

Record World : Type := mkWorld {
  server : State;
  sessions : gmap nat Session
}.

Definition session_of (w : World) (caller : nat) : Session :=
  default no_session (sessions w !! caller).

Definition step (w : World) (caller : nat) (req : Request) (env : Env) : Outcome * World :=
  let '(out, st', s') := handle req env (server w) (session_of w caller) in
  (out, mkWorld st' (<[caller := s']> (sessions w))).

Record Event : Type := mkEvent {
  caller : nat;
  request : Request;
  environment : Env
}.

Definition after (w : World) (ev : Event) : World :=
  (step w (caller ev) (request ev) (environment ev)).2.

Definition run (w : World) (evs : list Event) : World := foldl after w evs.

Definition boot : World := mkWorld (mkState [] []) ∅.

Definition waiting (w : World) : Dict.dict Pending := WAITING_FOR_SCAN (server w).

(** ** Vocabulary of the statements *)

(** The timeout test of [check_status]. *)
Definition is_expired (entry : Pending) (now : Q) : bool :=
  Qltb TIMEOUT_SECONDS (Float.sub now (timestamp entry)).

(** [link_uid_to_student] returns [True] in this environment. *)
Definition persistence_succeeds (env : Env) : bool :=
  get_sheet env &&
  match update_cell_result env, cell_result env with
  | Py.Returns _, Py.Returns _ => true
  | _, _ => false
  end.

(** The name read back from the worksheet, when it is. *)
Definition read_back (env : Env) : option string :=
  match cell_result env with Py.Returns v => v | Py.Raises _ => None end.

(** A body that carries a scanned code (or none, which reads as the empty
    code), and that code as [link_rfid] sees it. *)
Definition is_scan (data : Body) : bool :=
  match data with
  | Object Absent | Object (FStr _) => true
  | _ => false
  end.

Definition scanned_code (data : Body) : string :=
  match data with
  | Object (FStr s) => Py.strip s
  | _ => EmptyString
  end.

Definition status_of (out : Outcome) : option JValue :=
  match out with
  | Reply body _ => snd <$> List.find (fun kv => bool_decide (kv.1 = "status")) body
  | Uncaught _ => None
  end.

Definition http_of (out : Outcome) : option N :=
  match out with Reply _ http => Some http | Uncaught _ => None end.

(** The replies the statements name. *)
Definition invalid_input : Outcome :=
  Reply [("status", JStr "error");
         ("message", JStr "Name and Register Number are required.")] 200.

Definition no_active_session : Outcome :=
  Reply [("status", JStr "error");
         ("message", JStr "No active linking session found.")] 404.

Definition linked_reply (reg_no : string) (result_name : option string) : Outcome :=
  Reply [("status", JStr "linked");
         ("name", json result_name);
         ("register_number", JStr reg_no);
         ("message", JStr ("Card linked to " +:+ fmt result_name))] 200.

Definition failed_reply (reason : option string) : Outcome :=
  Reply [("status", JStr "error"); ("message", json reason)] 500.

Definition timeout_reply : Outcome :=
  Reply [("status", JStr "timeout");
         ("message", JStr "Linking session timed out.")] 408.

Definition still_waiting : Outcome :=
  Reply [("status", JStr "waiting");
         ("message", JStr "Still waiting for RFID scan...")] 200.

Definition card_linked : Outcome :=
  Reply [("status", JStr "linked");
         ("message", JStr "Card linked successfully!")] 200.

Definition session_expired : Outcome :=
  Reply [("status", JStr "error");
         ("message", JStr "Session expired or invalid.")] 200.

(** The oldest key of a dictionary, as [link_rfid] selects it. *)
Definition oldest (d : Dict.dict Pending) : option string :=
  py_min (timestamp_of d) (Dict.keys d).

(** The oldest entry: bound, and no entry of the dictionary is older. *)
Definition is_oldest (d : Dict.dict Pending) (k : string) (e : Pending) : Prop :=
  Dict.get k d = Some e
  ∧ ∀ k' e', Dict.get k' d = Some e' → (timestamp e <= timestamp e')%Q.

(** A register number has a backing record: an [append_row] that returned,
    with the number and the name in its first two cells and the row index
    read off the range it gave. *)
Definition backed (st : State) (reg_no : string) (entry : Pending) : Prop :=
  ∃ date added_range,
    append_row [reg_no; name entry; EmptyString; date] (Py.Returns added_range)
      ∈ sheet_calls st
    ∧ Py.int (Py.filter Py.isdigit added_range) = Py.Returns (row_index entry).

(** Every entry of the dictionary has its backing record. *)
Definition all_backed (st : State) : Prop :=
  ∀ k e, Dict.get k (WAITING_FOR_SCAN st) = Some e → backed st k e.

(** A request that submits the register number [k]. *)
Definition registers (k : string) (req : Request) : Prop :=
  ∃ n r, req = POST_register n (Some r) ∧ Py.strip r = k.

(** ** Scenarios

    The callers, environments and states the examples run on: one browser
    per student, and the scanner board, which posts without a cookie of
    the browsers. *)

Definition browser_a : nat := 1.
Definition browser_b : nat := 2.
Definition scanner : nat := 7.

(** The worksheet answers: the append lands on row [row], the cell read
    back holds [cell]. *)
Definition sheet_ok (now : Q) (row : string) (cell : option string) : Env :=
  mkEnv true (Py.Returns ("Students!A" +:+ row)) (Py.Returns tt)
        (Py.Returns cell) now "2025-03-01 09:00:00".

(** The worksheet cannot be reached. *)
Definition sheet_down (now : Q) : Env :=
  mkEnv false (Py.Raises "unreachable") (Py.Raises "unreachable")
        (Py.Raises "unreachable") now "2025-03-01 09:00:00".

(** The worksheet is reached and every call on it raises. *)
Definition sheet_raises (now : Q) : Env :=
  mkEnv true (Py.Raises "APIError 503") (Py.Raises "APIError 503")
        (Py.Raises "APIError 503") now "2025-03-01 09:00:00".

Definition register_alice : Event :=
  mkEvent browser_a (POST_register (Some "Alice") (Some "R1"))
          (sheet_ok 0 "2" None).

Definition register_bob : Event :=
  mkEvent browser_b (POST_register (Some " Bob ") (Some "R2 "))
          (sheet_ok 10 "3" None).

Definition scan_uid123 (now : Q) (cell : option string) : Event :=
  mkEvent scanner (POST_link_rfid (Object (FStr "UID123")))
          (sheet_ok now "0" cell).

Definition one_waiting : World := run boot [register_alice].
Definition two_waiting : World := run boot [register_alice; register_bob].

(** Alice registers from her browser, then the scanner posts her card. *)
Definition alice_linked : World :=
  run boot [register_alice; scan_uid123 1 (Some "Alice")].

(** ** Vocabulary of the further properties *)

(** The replies to a sequence of requests, in order. *)
Fixpoint replies (w : World) (evs : list Event) : list Outcome :=
  match evs with
  | [] => []
  | ev :: evs' =>
      (step w (caller ev) (request ev) (environment ev)).1
      :: replies (after w ev) evs'
  end.

(** A scan that carries a code, in an environment where the persistence
    update succeeds. *)
Definition is_good_scan (ev : Event) : Prop :=
  ∃ data, request ev = POST_link_rfid data
          ∧ is_scan data = true
          ∧ persistence_succeeds (environment ev) = true.

(** A string that [strip] leaves as it is, and that is not empty. *)
Definition trimmed (s : string) : Prop := s ≠ EmptyString ∧ Py.strip s = s.

(** What a call on the worksheet looks like, given the calls before it: an
    append has the four cells of [data_row]; an update writes column 3 of
    a row whose index was read off an append that returned. *)
Definition call_ok (earlier : list SheetCall) (c : SheetCall) : Prop :=
  match c with
  | append_row row _ =>
      ∃ r n d, row = [r; n; EmptyString; d] ∧ trimmed r ∧ trimmed n
  | update_cell row col v _ =>
      col = 3%N ∧ Py.strip v = v
      ∧ ∃ cells rng,
          append_row cells (Py.Returns rng) ∈ earlier
          ∧ Py.int (Py.filter Py.isdigit rng) = Py.Returns row
  end.

Definition log_ok (calls : list SheetCall) : Prop :=
  ∀ i c, calls !! i = Some c → call_ok (take i calls) c.

(** Every entry of the registry is stored under a trimmed register number
    and carries a trimmed name. *)
Definition entries_trimmed (st : State) : Prop :=
  ∀ k e, Dict.get k (WAITING_FOR_SCAN st) = Some e → trimmed k ∧ trimmed (name e).

(** The session with another value under ['waiting_reg_no']. *)
Definition with_waiting_reg_no (v : option string) (s : Session) : Session :=
  mkSession v (linked_reg_no s).

(** * Properties *)

(** ** The dictionary *)

Section DictFacts.
Context {V : Type}.
Implicit Types (d : Dict.dict V) (k : string) (v : V).

Lemma get_is_Some_keys k d : is_Some (Dict.get k d) ↔ k ∈ Dict.keys d.
Proof.
  induction d as [|[k' v'] d IH]; simpl.
  - split; [intros [? ?]; discriminate | intros H; inversion H].
  - case_decide as Hk; subst.
    + split; [intros _; left | eauto].
    + rewrite IH. split; [by right | ].
      intros H. inversion H; subst; [congruence | done].
Qed.

Lemma get_None_keys k d : Dict.get k d = None ↔ k ∉ Dict.keys d.
Proof. rewrite <- get_is_Some_keys, eq_None_not_Some. done. Qed.

Lemma get_Some_elem k v d : Dict.get k d = Some v → (k, v) ∈ d.
Proof.
  induction d as [|[k' v'] d IH]; simpl; [discriminate|].
  case_decide; subst.
  - intros [= ->]. left.
  - intros Hg. right. auto.
Qed.

Lemma get_set_eq k v d : Dict.get k (Dict.set k v d) = Some v.
Proof.
  induction d as [|[k' v'] d IH]; simpl.
  - by rewrite decide_True.
  - case_decide; subst; simpl.
    + by rewrite decide_True.
    + by rewrite decide_False.
Qed.

Lemma get_set_ne k k' v d : k ≠ k' → Dict.get k' (Dict.set k v d) = Dict.get k' d.
Proof.
  intros Hne. induction d as [|[k0 v0] d IH]; simpl.
  - by rewrite decide_False.
  - case_decide; subst; simpl.
    + by rewrite !decide_False.
    + by rewrite IH.
Qed.

Lemma keys_set k v d :
  Dict.keys (Dict.set k v d) =
  if Dict.contains k d then Dict.keys d else Dict.keys d ++ [k].
Proof.
  unfold Dict.contains.
  induction d as [|[k0 v0] d IH]; simpl; [done|].
  case_decide; subst; simpl; [done|].
  unfold Dict.keys in *. rewrite IH.
  by destruct (Dict.get k d).
Qed.

Lemma wf_set k v d : Dict.wf d → Dict.wf (Dict.set k v d).
Proof.
  unfold Dict.wf. rewrite keys_set. unfold Dict.contains.
  destruct (Dict.get k d) eqn:Hg; [done|].
  intros Hd. apply NoDup_app. split_and!; [done | | apply NoDup_singleton].
  intros x Hx Hx'. apply list_elem_of_singleton in Hx'. subst.
  by apply get_None_keys in Hg.
Qed.

Lemma get_pop_ne k k' d : k ≠ k' → Dict.get k' (Dict.pop k d) = Dict.get k' d.
Proof.
  intros Hne. induction d as [|[k0 v0] d IH]; simpl; [done|].
  case_decide; subst; simpl.
  - by rewrite decide_False.
  - by rewrite IH.
Qed.

Lemma keys_pop_subseteq k d : Dict.keys (Dict.pop k d) ⊆ Dict.keys d.
Proof.
  induction d as [|[k0 v0] d IH]; simpl; [done|].
  case_decide; subst; simpl.
  - intros x Hx. by right.
  - intros x Hx. inversion Hx; subst; [left | right; by apply IH].
Qed.

Lemma wf_pop k d : Dict.wf d → Dict.wf (Dict.pop k d).
Proof.
  unfold Dict.wf. induction d as [|[k0 v0] d IH]; simpl; [done|].
  intros Hd. apply NoDup_cons in Hd as [Hin Hd].
  case_decide; subst; simpl; [done|].
  apply NoDup_cons. split; [|auto].
  intros Hx. apply Hin. by apply (keys_pop_subseteq k).
Qed.

Lemma get_pop_eq k d : Dict.wf d → Dict.get k (Dict.pop k d) = None.
Proof.
  unfold Dict.wf. induction d as [|[k0 v0] d IH]; simpl; [done|].
  intros Hd. apply NoDup_cons in Hd as [Hin Hd].
  case_decide; subst; simpl.
  - by apply get_None_keys.
  - rewrite decide_False by done. auto.
Qed.

Lemma length_pop k d :
  is_Some (Dict.get k d) → length d = S (length (Dict.pop k d)).
Proof.
  induction d as [|[k0 v0] d IH]; simpl.
  - intros [? ?]; discriminate.
  - case_decide; subst; simpl; [done|]. intros Hg. by rewrite IH.
Qed.

Lemma filter_Forall_id {A} (P : A → Prop) `{!∀ x, Decision (P x)} (l : list A) :
  Forall P l → filter P l = l.
Proof.
  induction 1 as [|x l Hx Hl IH]; [done|].
  rewrite filter_cons_True by done. by rewrite IH.
Qed.

Lemma filter_Forall_nil {A} (P : A → Prop) `{!∀ x, Decision (P x)} (l : list A) :
  Forall (λ x, ¬ P x) l → filter P l = [].
Proof.
  induction 1 as [|x l Hx Hl IH]; [done|].
  by rewrite filter_cons_False.
Qed.

(** Popping a key keeps the other bindings in their order. *)
Lemma pop_filter k d :
  Dict.wf d → Dict.pop k d = filter (λ kv, kv.1 ≠ k) d.
Proof.
  unfold Dict.wf, Dict.keys. induction d as [|[k0 v0] d IH]; [done|].
  rewrite fmap_cons, NoDup_cons. intros [Hin Hd]. cbn [Dict.pop].
  case_decide; subst.
  - rewrite filter_cons_False by (simpl; auto).
    symmetry. apply filter_Forall_id. apply Forall_forall.
    intros [k1 v1] Hx. simpl. intros ->. apply Hin.
    apply list_elem_of_fmap. by exists (k, v1).
  - rewrite filter_cons_True by done. by rewrite IH.
Qed.

End DictFacts.

(** ** [min] and the oldest entry *)

Lemma Qltb_lt (x y : Q) : Qltb x y = true ↔ (x < y)%Q.
Proof.
  unfold Qltb. rewrite negb_true_iff, <- not_true_iff_false, Qle_bool_iff.
  split; [apply Qnot_le_lt | apply Qlt_not_le].
Qed.

Lemma Qltb_ge (x y : Q) : Qltb x y = false ↔ (y <= x)%Q.
Proof.
  unfold Qltb. rewrite negb_false_iff. apply Qle_bool_iff.
Qed.

Section MinFacts.
Context {A : Type} (key : A → Q).

Lemma min_from_elem (best : A) (xs : list A) :
  min_from key best xs ∈ best :: xs.
Proof.
  revert best. induction xs as [|x xs IH]; intros best; simpl; [left|].
  specialize (IH (if Qltb (key x) (key best) then x else best)).
  rewrite !elem_of_cons in *.
  destruct (Qltb (key x) (key best)); tauto.
Qed.

Lemma min_from_le_best (best : A) (xs : list A) :
  (key (min_from key best xs) <= key best)%Q.
Proof.
  revert best. induction xs as [|x xs IH]; intros best; simpl; [lra|].
  specialize (IH (if Qltb (key x) (key best) then x else best)).
  destruct (Qltb (key x) (key best)) eqn:Hlt; [|done].
  apply Qltb_lt in Hlt. lra.
Qed.

Lemma min_from_le (best : A) (xs : list A) (x : A) :
  x ∈ best :: xs → (key (min_from key best xs) <= key x)%Q.
Proof.
  revert best. induction xs as [|y xs IH]; intros best Hx.
  - apply list_elem_of_singleton in Hx as ->. simpl. lra.
  - simpl. set (b := if Qltb (key y) (key best) then y else best).
    assert (Hb : (key b <= key best)%Q ∧ (key b <= key y)%Q).
    { subst b. destruct (Qltb (key y) (key best)) eqn:Hlt.
      - apply Qltb_lt in Hlt. lra.
      - apply Qltb_ge in Hlt. lra. }
    pose proof (min_from_le_best b xs) as Hm.
    inversion Hx as [|? ? ? Hx']; subst; [lra|].
    inversion Hx'; subst; [lra|].
    apply IH. by right.
Qed.

(** Among equal keys the one met first is kept: whatever stands before the
    minimum in the sequence has a strictly larger key. *)
Lemma min_from_first (best : A) (xs : list A) :
  ∃ l1 l2, best :: xs = l1 ++ min_from key best xs :: l2
           ∧ ∀ x, x ∈ l1 → (key (min_from key best xs) < key x)%Q.
Proof.
  revert best. induction xs as [|y xs IH]; intros best; simpl.
  - exists [], []. split; [done|]. intros x Hx. inversion Hx.
  - destruct (Qltb (key y) (key best)) eqn:Hlt.
    + destruct (IH y) as (l1 & l2 & Heq & Hl1).
      exists (best :: l1), l2. split; [simpl; f_equal; exact Heq|].
      intros x Hx. inversion Hx; subst; [|auto].
      apply Qltb_lt in Hlt. pose proof (min_from_le_best y xs). lra.
    + destruct (IH best) as (l1 & l2 & Heq & Hl1).
      destruct l1 as [|b l1]; simpl in Heq.
      * exists [], (y :: l2). split; [|intros x Hx; inversion Hx].
        simpl. injection Heq as Hb Hxs. f_equal; [exact Hb | f_equal; exact Hxs].
      * injection Heq as Hb Hxs. subst b.
        exists (best :: y :: l1), l2. split; [simpl; do 2 f_equal; exact Hxs|].
        apply Qltb_ge in Hlt.
        assert (key (min_from key best xs) < key best)%Q as Hbest
          by (apply Hl1; left).
        intros x Hx. inversion Hx as [|? ? ? Hx']; subst; [done|].
        inversion Hx'; subst; [lra|]. apply Hl1. by right.
Qed.

Lemma py_min_is_Some (xs : list A) : xs ≠ [] → is_Some (py_min key xs).
Proof. destruct xs; [done | eauto]. Qed.

Lemma py_min_elem (xs : list A) (m : A) : py_min key xs = Some m → m ∈ xs.
Proof. destruct xs; [done|]. intros [= <-]. apply min_from_elem. Qed.

Lemma py_min_le (xs : list A) (m x : A) :
  py_min key xs = Some m → x ∈ xs → (key m <= key x)%Q.
Proof. destruct xs; [done|]. intros [= <-]. apply min_from_le. Qed.

Lemma py_min_first (xs : list A) (m : A) :
  py_min key xs = Some m →
  ∃ l1 l2, xs = l1 ++ m :: l2 ∧ ∀ x, x ∈ l1 → (key m < key x)%Q.
Proof. destruct xs; [done|]. intros [= <-]. apply min_from_first. Qed.

End MinFacts.

Lemma oldest_is_Some (d : Dict.dict Pending) : d ≠ [] → is_Some (oldest d).
Proof.
  intros Hd. apply py_min_is_Some. destruct d; [done | discriminate].
Qed.

Lemma oldest_bound (d : Dict.dict Pending) (k : string) :
  oldest d = Some k → is_Some (Dict.get k d).
Proof. intros Hk. apply get_is_Some_keys. by eapply py_min_elem. Qed.

Lemma oldest_le (d : Dict.dict Pending) (k k' : string) (e e' : Pending) :
  oldest d = Some k → Dict.get k d = Some e → Dict.get k' d = Some e' →
  (timestamp e <= timestamp e')%Q.
Proof.
  intros Hk He He'.
  assert (k' ∈ Dict.keys d) as Hin by (apply get_is_Some_keys; eauto).
  pose proof (py_min_le _ _ _ _ Hk Hin) as Hle.
  unfold timestamp_of in Hle. by rewrite He, He' in Hle.
Qed.

Lemma oldest_is_oldest (d : Dict.dict Pending) :
  d ≠ [] → ∃ k e, oldest d = Some k ∧ is_oldest d k e.
Proof.
  intros Hd. destruct (oldest_is_Some d Hd) as [k Hk].
  destruct (oldest_bound d k Hk) as [e He].
  exists k, e. split; [done|]. split; [done|].
  intros k' e'. by apply (oldest_le d k).
Qed.

(** ** The helper [link_uid_to_student] *)

Section LinkUid.
Context (row : N) (uid student : string) (env : Env) (st : State).

Lemma link_uid_to_student_success :
  (link_uid_to_student row uid student env st).1.1 = persistence_succeeds env.
Proof.
  unfold link_uid_to_student, persistence_succeeds.
  destruct (get_sheet env); simpl; [|done].
  by destruct (update_cell_result env), (cell_result env).
Qed.

Lemma link_uid_to_student_waiting :
  WAITING_FOR_SCAN (link_uid_to_student row uid student env st).2
  = WAITING_FOR_SCAN st.
Proof.
  unfold link_uid_to_student.
  destruct (get_sheet env); simpl; [|done].
  by destruct (update_cell_result env), (cell_result env).
Qed.

Lemma link_uid_to_student_ok :
  persistence_succeeds env = true →
  link_uid_to_student row uid student env st
  = ((true, read_back env), log (update_cell row 3 uid (Py.Returns tt)) st).
Proof.
  unfold link_uid_to_student, persistence_succeeds, read_back.
  destruct (get_sheet env); simpl; [|done].
  destruct (update_cell_result env) as [[]|]; [|done].
  by destruct (cell_result env).
Qed.

Lemma link_uid_to_student_failed :
  persistence_succeeds env = false →
  ∃ reason, (link_uid_to_student row uid student env st).1 = (false, Some reason).
Proof.
  unfold link_uid_to_student, persistence_succeeds.
  destruct (get_sheet env); simpl; [|eauto].
  destruct (update_cell_result env); [|eauto].
  destruct (cell_result env); [done | eauto].
Qed.

Lemma link_uid_to_student_calls :
  sheet_calls (link_uid_to_student row uid student env st).2
  = if get_sheet env
    then sheet_calls st ++ [update_cell row 3 uid (update_cell_result env)]
    else sheet_calls st.
Proof.
  unfold link_uid_to_student.
  destruct (get_sheet env); simpl; [|done].
  by destruct (update_cell_result env), (cell_result env).
Qed.

End LinkUid.

(** ** [link_rfid] on a scan *)

(** With an entry waiting, a scan goes to the oldest one and ends as
    [link_uid_to_student] does. *)
Lemma link_rfid_scan data env st session k e :
  is_scan data = true →
  oldest (WAITING_FOR_SCAN st) = Some k →
  Dict.get k (WAITING_FOR_SCAN st) = Some e →
  link_rfid data env st session =
    let r := link_uid_to_student (row_index e) (scanned_code data) (name e) env st in
    if r.1.1 then
      (linked_reply k r.1.2,
       with_waiting (Dict.pop k (WAITING_FOR_SCAN r.2)) r.2,
       mkSession (waiting_reg_no session) (Some k))
    else (failed_reply r.1.2, r.2, session).
Proof.
  intros Hscan Hk He. unfold oldest in Hk.
  assert (WAITING_FOR_SCAN st ≠ []) as Hne.
  { intros Hnil. rewrite Hnil in He. discriminate. }
  destruct data as [[|s|ty]|ty]; try discriminate Hscan;
    unfold link_rfid; destruct (WAITING_FOR_SCAN st) as [|kv d] eqn:Hd; try done;
    rewrite Hk, He; simpl;
    by destruct (link_uid_to_student _ _ _ _ _) as [[[] ?] ?].
Qed.

Lemma link_rfid_empty data env st session :
  is_scan data = true → WAITING_FOR_SCAN st = [] →
  link_rfid data env st session = (no_active_session, st, session).
Proof.
  intros Hscan Hnil. unfold link_rfid. rewrite Hnil.
  by destruct data as [[|s|ty]|ty].
Qed.

Lemma link_rfid_not_scan data env st session :
  is_scan data = false →
  ∃ exn, link_rfid data env st session = (Uncaught exn, st, session).
Proof. destruct data as [[|s|ty]|ty]; try done; simpl; eauto. Qed.

(** ** What each handler does to the state *)

Lemma truthy_false (s : string) : Py.truthy s = false ↔ s = EmptyString.
Proof. by destruct s. Qed.

Lemma truthy_true (s : string) : Py.truthy s = true ↔ s ≠ EmptyString.
Proof. by destruct s. Qed.

(** [register] either leaves the dictionary and the session as they are
    and does not answer "waiting", or it went all the way: both fields
    there and not blank, the row appended, its index read, the entry
    stored under the trimmed register number. *)
Lemma register_cases n r env st session :
  (WAITING_FOR_SCAN (register n r env st session).1.2 = WAITING_FOR_SCAN st
   ∧ status_of (register n r env st session).1.1 ≠ Some (JStr "waiting")
   ∧ (register n r env st session).2 = session)
  ∨ (∃ n' r' rng idx,
       n = Some n' ∧ r = Some r'
       ∧ Py.strip n' ≠ EmptyString ∧ Py.strip r' ≠ EmptyString
       ∧ get_sheet env = true
       ∧ append_row_result env = Py.Returns rng
       ∧ Py.int (Py.filter Py.isdigit rng) = Py.Returns idx
       ∧ register n r env st session =
           (Reply [("status", JStr "waiting");
                   ("message", JStr ("Student " +:+ Py.strip n' +:+
                                     " registered. Waiting for RFID scan..."));
                   ("reg_no", JStr (Py.strip r'))] 200,
            mkState
              (Dict.set (Py.strip r')
                 (mkPending (Py.strip n') (clock env) idx) (WAITING_FOR_SCAN st))
              (sheet_calls st ++
                 [append_row [Py.strip r'; Py.strip n'; EmptyString; today env]
                    (Py.Returns rng)]),
            mkSession (Some (Py.strip r')) (linked_reg_no session))).
Proof.
  unfold register.
  destruct n as [n'|]; [|by left].
  destruct r as [r'|]; [|by left].
  destruct (Py.truthy (Py.strip n')) eqn:Hn; [|by left].
  destruct (Py.truthy (Py.strip r')) eqn:Hr; [|by left].
  apply truthy_true in Hn, Hr. simpl.
  destruct (get_sheet env) eqn:Hs; [|by left]. simpl.
  destruct (append_row_result env) as [rng|e] eqn:Ha; [|by left].
  destruct (Py.int (Py.filter Py.isdigit rng)) as [idx|e] eqn:Hi; [|by left].
  right. by exists n', r', rng, idx.
Qed.

Lemma register_calls n r env st session :
  ∃ l, sheet_calls (register n r env st session).1.2 = sheet_calls st ++ l.
Proof.
  unfold register.
  destruct n as [n'|]; [|by exists []; rewrite app_nil_r].
  destruct r as [r'|]; [|by exists []; rewrite app_nil_r].
  destruct (negb _ || negb _); [by exists []; rewrite app_nil_r|].
  destruct (negb _); [by exists []; rewrite app_nil_r|].
  destruct (append_row_result env) as [rng|e]; [|by eexists].
  destruct (Py.int _); by eexists.
Qed.

(** [check_status] pops the register number asked for, in the timeout
    reply, or leaves the dictionary as it is; the worksheet is not
    called. *)
Lemma check_status_cases reg_no env st session :
  sheet_calls (check_status reg_no env st session).1.2 = sheet_calls st
  ∧ ((WAITING_FOR_SCAN (check_status reg_no env st session).1.2 = WAITING_FOR_SCAN st
      ∧ (check_status reg_no env st session).1.1 ≠ timeout_reply)
     ∨ (∃ entry, Dict.get reg_no (WAITING_FOR_SCAN st) = Some entry
          ∧ is_expired entry (clock env) = true
          ∧ check_status reg_no env st session =
              (timeout_reply,
               with_waiting (Dict.pop reg_no (WAITING_FOR_SCAN st)) st,
               mkSession None (linked_reg_no session)))).
Proof.
  unfold check_status, is_expired.
  destruct (Dict.get reg_no (WAITING_FOR_SCAN st)) as [entry|] eqn:Hg.
  - destruct (Qltb _ _) eqn:Hexp; simpl; (split; [done|]).
    + right. by exists entry.
    + by left.
  - case_decide; simpl; (split; [done|]); by left.
Qed.

(** [link_rfid] pops the register number it links, in the linked reply,
    or leaves the dictionary as it is. *)
Lemma link_rfid_cases data env st session :
  (WAITING_FOR_SCAN (link_rfid data env st session).1.2 = WAITING_FOR_SCAN st
   ∧ status_of (link_rfid data env st session).1.1 ≠ Some (JStr "linked"))
  ∨ (∃ k e, is_oldest (WAITING_FOR_SCAN st) k e
       ∧ is_scan data = true
       ∧ persistence_succeeds env = true
       ∧ link_rfid data env st session =
           (linked_reply k (read_back env),
            mkState (Dict.pop k (WAITING_FOR_SCAN st))
                    (sheet_calls st ++
                       [update_cell (row_index e) 3 (scanned_code data)
                          (Py.Returns tt)]),
            mkSession (waiting_reg_no session) (Some k))).
Proof.
  destruct (is_scan data) eqn:Hscan.
  2: { left. destruct (link_rfid_not_scan data env st session Hscan) as [x ->].
       done. }
  destruct (WAITING_FOR_SCAN st) as [|kv d] eqn:Hd.
  { left. rewrite link_rfid_empty by done. simpl. by rewrite Hd. }
  destruct (oldest_is_oldest (WAITING_FOR_SCAN st)) as (k & e & Hk & Hold).
  { by rewrite Hd. }
  rewrite <- Hd.
  rewrite (link_rfid_scan data env st session k e Hscan Hk (proj1 Hold)).
  destruct (persistence_succeeds env) eqn:Hp.
  - right. exists k, e. split_and!; try done.
    by rewrite link_uid_to_student_ok.
  - left. cbv zeta. rewrite link_uid_to_student_success, Hp.
    simpl. by rewrite link_uid_to_student_waiting.
Qed.

Lemma link_rfid_calls data env st session :
  ∃ l, sheet_calls (link_rfid data env st session).1.2 = sheet_calls st ++ l.
Proof.
  destruct (is_scan data) eqn:Hscan.
  2: { destruct (link_rfid_not_scan data env st session Hscan) as [x ->].
       exists []. by rewrite app_nil_r. }
  destruct (WAITING_FOR_SCAN st) as [|kv d] eqn:Hd.
  { rewrite link_rfid_empty by done. exists []. by rewrite app_nil_r. }
  destruct (oldest_is_oldest (WAITING_FOR_SCAN st)) as (k & e & Hk & Hold).
  { by rewrite Hd. }
  rewrite (link_rfid_scan data env st session k e Hscan Hk (proj1 Hold)).
  cbv zeta.
  pose proof (link_uid_to_student_calls (row_index e) (scanned_code data)
                (name e) env st) as Hc.
  destruct (link_uid_to_student _ _ _ _ _) as [[[] nm] st1]; simpl in *;
    rewrite Hc; destruct (get_sheet env); eauto;
    exists []; by rewrite app_nil_r.
Qed.

(** ** Invariants of the server *)

Lemma get_pop_Some {V} (k k' : string) (v : V) (d : Dict.dict V) :
  Dict.wf d → Dict.get k (Dict.pop k' d) = Some v → Dict.get k d = Some v.
Proof.
  intros Hwf Hg. destruct (decide (k' = k)) as [->|Hne].
  - rewrite get_pop_eq in Hg by done. discriminate.
  - by rewrite get_pop_ne in Hg.
Qed.

Lemma get_pop_None {V} (k k' : string) (d : Dict.dict V) :
  Dict.get k d = None → Dict.get k (Dict.pop k' d) = None.
Proof.
  rewrite !get_None_keys. intros Hk Hin. apply Hk.
  by apply (keys_pop_subseteq k').
Qed.

Lemma handle_calls req env st session :
  ∃ l, sheet_calls (handle req env st session).1.2 = sheet_calls st ++ l.
Proof.
  destruct req as [n r|reg_no|data]; simpl.
  - apply register_calls.
  - exists []. rewrite app_nil_r. apply check_status_cases.
  - apply link_rfid_calls.
Qed.

Lemma handle_wf req env st session :
  Dict.wf (WAITING_FOR_SCAN st) →
  Dict.wf (WAITING_FOR_SCAN (handle req env st session).1.2).
Proof.
  intros Hwf. destruct req as [n r|reg_no|data]; simpl.
  - destruct (register_cases n r env st session)
      as [(-> & _)|(n' & r' & rng & idx & _ & _ & _ & _ & _ & _ & _ & ->)];
      [done|]. simpl. by apply wf_set.
  - destruct (check_status_cases reg_no env st session)
      as [_ [(-> & _)|(entry & _ & _ & ->)]]; [done|]. simpl. by apply wf_pop.
  - destruct (link_rfid_cases data env st session)
      as [(-> & _)|(k & e & _ & _ & _ & ->)]; [done|]. simpl. by apply wf_pop.
Qed.

Lemma backed_mono st st' k e :
  (∃ l, sheet_calls st' = sheet_calls st ++ l) → backed st k e → backed st' k e.
Proof.
  intros [l Hl] (date & rng & Hin & Hidx). exists date, rng. split; [|done].
  rewrite Hl. apply elem_of_app. by left.
Qed.

Lemma handle_backed req env st session :
  Dict.wf (WAITING_FOR_SCAN st) → all_backed st →
  all_backed (handle req env st session).1.2.
Proof.
  intros Hwf Hb k e Hg.
  pose proof (handle_calls req env st session) as Hcalls.
  destruct req as [n r|reg_no|data]; simpl in *.
  - destruct (register_cases n r env st session)
      as [(Heq & _)|(n' & r' & rng & idx & _ & _ & _ & _ & _ & _ & Hidx & Heq)].
    + rewrite Heq in Hg. eapply backed_mono; eauto.
    + rewrite Heq in Hg, Hcalls |- *. simpl in *.
      destruct (decide (Py.strip r' = k)) as [<-|Hne].
      * rewrite get_set_eq in Hg. injection Hg as <-.
        exists (today env), rng. split; [|done]. simpl.
        apply elem_of_app. right. left.
      * rewrite get_set_ne in Hg by done.
        eapply (backed_mono st); [by eexists|]. by apply Hb.
  - destruct (check_status_cases reg_no env st session)
      as [_ [(Heq & _)|(entry & _ & _ & Heq)]].
    + rewrite Heq in Hg. eapply backed_mono; eauto.
    + rewrite Heq in Hg, Hcalls |- *. simpl in *.
      apply get_pop_Some in Hg; [|done].
      eapply (backed_mono st); [by exists []; rewrite app_nil_r|]. by apply Hb.
  - destruct (link_rfid_cases data env st session)
      as [(Heq & _)|(k0 & e0 & _ & _ & _ & Heq)].
    + rewrite Heq in Hg. eapply backed_mono; eauto.
    + rewrite Heq in Hg, Hcalls |- *. simpl in *.
      apply get_pop_Some in Hg; [|done].
      eapply (backed_mono st); [by eexists|]. by apply Hb.
Qed.

Lemma server_after w ev :
  server (after w ev)
  = (handle (request ev) (environment ev) (server w) (session_of w (caller ev))).1.2.
Proof.
  unfold after, step.
  by destruct (handle _ _ _ _) as [[out st'] s'].
Qed.

Lemma server_step w c req env :
  server (step w c req env).2 = (handle req env (server w) (session_of w c)).1.2.
Proof. unfold step. by destruct (handle _ _ _ _) as [[out st'] s']. Qed.

Lemma outcome_step w c req env :
  (step w c req env).1 = (handle req env (server w) (session_of w c)).1.1.
Proof. unfold step. by destruct (handle _ _ _ _) as [[out st'] s']. Qed.

Lemma session_step_eq w c req env :
  session_of (step w c req env).2 c = (handle req env (server w) (session_of w c)).2.
Proof.
  unfold step. destruct (handle _ _ _ _) as [[out st'] s'].
  unfold session_of. simpl. by rewrite lookup_insert_eq.
Qed.

Lemma session_step_ne w c c' req env :
  c ≠ c' → session_of (step w c req env).2 c' = session_of w c'.
Proof.
  intros Hne. unfold step. destruct (handle _ _ _ _) as [[out st'] s'].
  unfold session_of. simpl. by rewrite lookup_insert_ne.
Qed.

Lemma run_invariant w evs :
  Dict.wf (waiting w) → all_backed (server w) →
  Dict.wf (waiting (run w evs)) ∧ all_backed (server (run w evs)).
Proof.
  revert w. induction evs as [|ev evs IH]; intros w Hwf Hb; [done|].
  simpl. apply IH; unfold waiting; rewrite server_after.
  - by apply handle_wf.
  - by apply handle_backed.
Qed.

Lemma boot_invariant : Dict.wf (waiting boot) ∧ all_backed (server boot).
Proof. split; [apply NoDup_nil_2 | intros k e Hg; discriminate]. Qed.

(** A register number that is not waiting stays out until a request
    submits it. *)
Lemma handle_absent req env st session k :
  Dict.get k (WAITING_FOR_SCAN st) = None → ¬ registers k req →
  Dict.get k (WAITING_FOR_SCAN (handle req env st session).1.2) = None.
Proof.
  intros Hk Hreq. destruct req as [n r|reg_no|data]; simpl.
  - destruct (register_cases n r env st session)
      as [(-> & _)|(n' & r' & rng & idx & -> & -> & _ & _ & _ & _ & _ & ->)];
      [done|]. simpl.
    rewrite get_set_ne; [done|]. intros Heq. apply Hreq. by exists (Some n'), r'.
  - destruct (check_status_cases reg_no env st session)
      as [_ [(-> & _)|(entry & _ & _ & ->)]]; [done|]. simpl.
    by apply get_pop_None.
  - destruct (link_rfid_cases data env st session)
      as [(-> & _)|(k0 & e0 & _ & _ & _ & ->)]; [done|]. simpl.
    by apply get_pop_None.
Qed.

Lemma run_absent w evs k :
  Dict.get k (waiting w) = None →
  Forall (λ ev, ¬ registers k (request ev)) evs →
  Dict.get k (waiting (run w evs)) = None.
Proof.
  revert w. induction evs as [|ev evs IH]; intros w Hk Hevs; [done|].
  apply Forall_cons in Hevs as [Hev Hevs]. simpl. apply IH; [|done].
  unfold waiting. rewrite server_after. by apply handle_absent.
Qed.

(** An entry leaves the dictionary only in the linked reply of a scan or
    in the timeout reply of a poll for it. *)
Lemma handle_removal req env st session k :
  Dict.wf (WAITING_FOR_SCAN st) →
  is_Some (Dict.get k (WAITING_FOR_SCAN st)) →
  Dict.get k (WAITING_FOR_SCAN (handle req env st session).1.2) = None →
  (∃ data, req = POST_link_rfid data
           ∧ (handle req env st session).1.1 = linked_reply k (read_back env))
  ∨ (req = GET_check_status k ∧ (handle req env st session).1.1 = timeout_reply).
Proof.
  intros Hwf [e He] Hgone. destruct req as [n r|reg_no|data]; simpl in *.
  - exfalso.
    destruct (register_cases n r env st session)
      as [(Heq & _)|(n' & r' & rng & idx & _ & _ & _ & _ & _ & _ & _ & Heq)];
      rewrite Heq in Hgone; [congruence|]. simpl in Hgone.
    destruct (decide (Py.strip r' = k)) as [<-|Hne].
    + by rewrite get_set_eq in Hgone.
    + rewrite get_set_ne in Hgone by done. congruence.
  - right.
    destruct (check_status_cases reg_no env st session)
      as [_ [(Heq & _)|(entry & _ & _ & Heq)]];
      [rewrite Heq in Hgone; congruence|].
    rewrite Heq in Hgone |- *. simpl in *.
    destruct (decide (reg_no = k)) as [->|Hne]; [done|].
    rewrite get_pop_ne in Hgone by done. congruence.
  - left. exists data. split; [done|].
    destruct (link_rfid_cases data env st session)
      as [(Heq & _)|(k0 & e0 & _ & _ & _ & Heq)];
      [rewrite Heq in Hgone; congruence|].
    rewrite Heq in Hgone |- *. simpl in *.
    destruct (decide (k0 = k)) as [->|Hne]; [done|].
    rewrite get_pop_ne in Hgone by done. congruence.
Qed.

(** ** The scenarios, evaluated *)

Example strip_spaces : Py.strip "  R1  " = "R1".
Proof. reflexivity. Qed.

Example strip_blank : Py.strip "   " = EmptyString.
Proof. reflexivity. Qed.

Example strip_inner : Py.strip " a b " = "a b".
Proof. reflexivity. Qed.

Example int_of_range : Py.int (Py.filter Py.isdigit "Students!A5") = Py.Returns 5%N.
Proof. reflexivity. Qed.

Example int_of_wide_range :
  Py.int (Py.filter Py.isdigit "Students!A5:D5") = Py.Returns 55%N.
Proof. reflexivity. Qed.

Example int_of_no_digit : Py.int (Py.filter Py.isdigit "Students") =
  Py.Raises "invalid literal for int() with base 10: ''".
Proof. reflexivity. Qed.

Example two_waiting_registry :
  waiting two_waiting =
  [("R1", mkPending "Alice" 0 2); ("R2", mkPending "Bob" 10 3)].
Proof. vm_compute. reflexivity. Qed.

Example two_waiting_sheet :
  sheet_calls (server two_waiting) =
  [append_row ["R1"; "Alice"; EmptyString; "2025-03-01 09:00:00"]
     (Py.Returns "Students!A2");
   append_row ["R2"; "Bob"; EmptyString; "2025-03-01 09:00:00"]
     (Py.Returns "Students!A3")].
Proof. vm_compute. reflexivity. Qed.

Example scan_resolves_R1 :
  (step two_waiting scanner (POST_link_rfid (Object (FStr "UID123")))
        (sheet_ok 20 "0" (Some "Alice"))).1
  = linked_reply "R1" (Some "Alice")
  ∧ waiting (after two_waiting (scan_uid123 20 (Some "Alice")))
    = [("R2", mkPending "Bob" 10 3)].
Proof. split; vm_compute; reflexivity. Qed.

Example poll_at_301_times_out :
  (step one_waiting browser_a (GET_check_status "R1") (sheet_ok 301 "0" None)).1
  = timeout_reply
  ∧ (step one_waiting browser_a (GET_check_status "R1") (sheet_ok 300 "0" None)).1
    = still_waiting.
Proof. split; vm_compute; reflexivity. Qed.

(** * The claims *)

Ltac decide_by_eval :=
  unfold Dict.wf; apply (bool_decide_unpack _); vm_compute; exact I.

(** ** Scan resolution *)

(** C3. For every non-empty registry a scan resolves the entry with the
    smallest arrival timestamp.  The register number [k] resolved is
    [oldest] of the registry, a function of the registry alone: neither
    the scanned code nor the session of the caller enters it.  When the
    persistence update succeeds the reply is the linked one for [k], [k]
    is gone, every other register number is bound as before and in the
    same order, and the registry is one entry shorter.  Among entries of
    equal timestamp the one registered first is resolved: every register
    number standing before [k] in the registry is strictly younger. *)
Theorem link_rfid_resolves_oldest data env st session :
  Dict.wf (WAITING_FOR_SCAN st) →
  WAITING_FOR_SCAN st ≠ [] →
  is_scan data = true →
  persistence_succeeds env = true →
  ∃ k e st',
    oldest (WAITING_FOR_SCAN st) = Some k
    ∧ is_oldest (WAITING_FOR_SCAN st) k e
    ∧ link_rfid data env st session
      = (linked_reply k (read_back env), st',
         mkSession (waiting_reg_no session) (Some k))
    ∧ Dict.get k (WAITING_FOR_SCAN st') = None
    ∧ (∀ k', k' ≠ k →
         Dict.get k' (WAITING_FOR_SCAN st') = Dict.get k' (WAITING_FOR_SCAN st))
    ∧ WAITING_FOR_SCAN st' = filter (λ kv, kv.1 ≠ k) (WAITING_FOR_SCAN st)
    ∧ length (WAITING_FOR_SCAN st) = S (length (WAITING_FOR_SCAN st'))
    ∧ ∃ before behind,
        Dict.keys (WAITING_FOR_SCAN st) = before ++ k :: behind
        ∧ ∀ k', k' ∈ before →
            (timestamp_of (WAITING_FOR_SCAN st) k
             < timestamp_of (WAITING_FOR_SCAN st) k')%Q.
Proof.
  intros Hwf Hne Hscan Hok.
  destruct (oldest_is_oldest _ Hne) as (k & e & Hk & Hold).
  exists k, e.
  rewrite (link_rfid_scan data env st session k e Hscan Hk (proj1 Hold)).
  rewrite link_uid_to_student_ok by done. cbn.
  eexists. split; [done|]. split; [done|]. split; [reflexivity|]. cbn.
  split_and!.
  - by apply get_pop_eq.
  - intros k' Hk'. by apply get_pop_ne.
  - by apply pop_filter.
  - apply length_pop. destruct Hold as [-> _]. eauto.
  - by apply py_min_first.
Qed.

Lemma link_rfid_resolves_oldest_witness :
  ∃ k e st',
    oldest (waiting two_waiting) = Some k
    ∧ is_oldest (waiting two_waiting) k e
    ∧ link_rfid (Object (FStr "UID123")) (sheet_ok 20 "0" (Some "Alice"))
        (server two_waiting) no_session
      = (linked_reply k (Some "Alice"), st', mkSession None (Some k))
    ∧ Dict.get k (WAITING_FOR_SCAN st') = None
    ∧ (∀ k', k' ≠ k →
         Dict.get k' (WAITING_FOR_SCAN st') = Dict.get k' (waiting two_waiting))
    ∧ WAITING_FOR_SCAN st' = filter (λ kv, kv.1 ≠ k) (waiting two_waiting)
    ∧ length (waiting two_waiting) = S (length (WAITING_FOR_SCAN st'))
    ∧ ∃ before behind,
        Dict.keys (waiting two_waiting) = before ++ k :: behind
        ∧ ∀ k', k' ∈ before →
            (timestamp_of (waiting two_waiting) k
             < timestamp_of (waiting two_waiting) k')%Q.
Proof.
  apply (link_rfid_resolves_oldest (Object (FStr "UID123"))
           (sheet_ok 20 "0" (Some "Alice")) (server two_waiting) no_session).
  - decide_by_eval.
  - vm_compute. discriminate.
  - reflexivity.
  - reflexivity.
Defined.

(** C7. A scan that arrives while the registry is empty is answered
    "No active linking session found." with HTTP status 404; the server
    state and the session of the caller are the ones it found. *)
Theorem link_rfid_no_active_session data env st session :
  is_scan data = true →
  WAITING_FOR_SCAN st = [] →
  link_rfid data env st session
  = (Reply [("status", JStr "error");
            ("message", JStr "No active linking session found.")] 404,
     st, session).
Proof.
  intros Hscan Hnil. unfold link_rfid. rewrite Hnil.
  by destruct data as [[|s|ty]|ty].
Qed.

Lemma link_rfid_no_active_session_witness :
  link_rfid (Object (FStr "UID123")) (sheet_ok 5 "0" None) (server boot) no_session
  = (Reply [("status", JStr "error");
            ("message", JStr "No active linking session found.")] 404,
     server boot, no_session).
Proof.
  apply (link_rfid_no_active_session (Object (FStr "UID123"))
           (sheet_ok 5 "0" None) (server boot) no_session); reflexivity.
Defined.

(** C10. [link_rfid] does not validate the scanned code.  For every scan
    whose [rfid_uid] is empty after trimming (or is not sent at all) and
    every non-empty registry, the oldest entry is selected as for any
    other code: whenever the worksheet is reached, the cell of that
    entry's row in column 3 is written with the empty string, and when the
    persistence update succeeds the entry is linked and popped.  The only
    other reply is the persistence failure; none rejects the code. *)
Theorem link_rfid_accepts_empty_code data env st session :
  is_scan data = true →
  scanned_code data = EmptyString →
  WAITING_FOR_SCAN st ≠ [] →
  ∃ k e,
    oldest (WAITING_FOR_SCAN st) = Some k
    ∧ is_oldest (WAITING_FOR_SCAN st) k e
    ∧ sheet_calls (link_rfid data env st session).1.2
      = (if get_sheet env
         then sheet_calls st
              ++ [update_cell (row_index e) 3 EmptyString (update_cell_result env)]
         else sheet_calls st)
    ∧ if persistence_succeeds env
      then link_rfid data env st session
           = (linked_reply k (read_back env),
              mkState (Dict.pop k (WAITING_FOR_SCAN st))
                (sheet_calls st
                 ++ [update_cell (row_index e) 3 EmptyString (Py.Returns tt)]),
              mkSession (waiting_reg_no session) (Some k))
      else ∃ reason,
             (link_rfid data env st session).1.1 = failed_reply (Some reason)
             ∧ (reason = "Database connection failed."
                ∨ ∃ exn, reason = "Failed to update database. Error: " +:+ exn).
Proof.
  intros Hscan Hcode Hne.
  destruct (oldest_is_oldest _ Hne) as (k & e & Hk & Hold).
  exists k, e. split; [done|]. split; [done|].
  rewrite (link_rfid_scan data env st session k e Hscan Hk (proj1 Hold)).
  rewrite Hcode. cbv zeta. split.
  - pose proof (link_uid_to_student_calls (row_index e) EmptyString (name e)
                  env st) as Hc.
    by destruct (link_uid_to_student _ _ _ _ _) as [[[] nm] st1].
  - destruct (persistence_succeeds env) eqn:Hok.
    + by rewrite link_uid_to_student_ok.
    + unfold link_uid_to_student, persistence_succeeds in *.
      destruct (get_sheet env); simpl in *; [|eauto].
      destruct (update_cell_result env); [|eauto].
      destruct (cell_result env); [done|eauto].
Qed.

Lemma link_rfid_accepts_empty_code_witness :
  ∃ k e,
    oldest (waiting two_waiting) = Some k
    ∧ is_oldest (waiting two_waiting) k e
    ∧ sheet_calls (link_rfid (Object (FStr "   ")) (sheet_ok 20 "0" (Some "Alice"))
                     (server two_waiting) no_session).1.2
      = sheet_calls (server two_waiting)
        ++ [update_cell (row_index e) 3 EmptyString (Py.Returns tt)]
    ∧ link_rfid (Object (FStr "   ")) (sheet_ok 20 "0" (Some "Alice"))
        (server two_waiting) no_session
      = (linked_reply k (Some "Alice"),
         mkState (Dict.pop k (waiting two_waiting))
           (sheet_calls (server two_waiting)
            ++ [update_cell (row_index e) 3 EmptyString (Py.Returns tt)]),
         mkSession None (Some k)).
Proof.
  apply (link_rfid_accepts_empty_code (Object (FStr "   "))
           (sheet_ok 20 "0" (Some "Alice")) (server two_waiting) no_session).
  - reflexivity.
  - reflexivity.
  - vm_compute. discriminate.
Defined.

(** The reply of [link_rfid], the session it leaves and the registry it
    leaves depend on the state through the registry only. *)
Lemma link_rfid_waiting_only data env st1 st2 session :
  WAITING_FOR_SCAN st1 = WAITING_FOR_SCAN st2 →
  (link_rfid data env st1 session).1.1 = (link_rfid data env st2 session).1.1
  ∧ WAITING_FOR_SCAN (link_rfid data env st1 session).1.2
    = WAITING_FOR_SCAN (link_rfid data env st2 session).1.2
  ∧ (link_rfid data env st1 session).2 = (link_rfid data env st2 session).2.
Proof.
  intros Heq. unfold link_rfid, link_uid_to_student.
  destruct data as [[|s|ty]|ty]; try done;
    rewrite <- Heq;
    destruct (WAITING_FOR_SCAN st1) as [|kv d] eqn:Hd;
    try (simpl; rewrite <- ?Heq, ?Hd; done);
    destruct (py_min _ _) as [k|];
    try (simpl; rewrite <- ?Heq, ?Hd; done);
    destruct (Dict.get k _) as [e|];
    try (simpl; rewrite <- ?Heq, ?Hd; done);
    destruct (get_sheet env);
    try (simpl; rewrite <- ?Heq, ?Hd; done);
    destruct (update_cell_result env), (cell_result env);
    simpl; rewrite <- ?Heq, ?Hd; done.
Qed.

(** C4. If the persistence update fails while a scan is resolved, the
    scan is answered with the reason and HTTP status 500, and the registry
    is the one it found: the selected entry is bound as before (same
    register number, name, timestamp and row index, at the same place) and
    no entry is added or removed.  A scan that comes next is resolved as
    it would have been on the state before the failure.  On every state
    the server can reach, a register number leaves the registry only in
    the linked reply of a scan that resolved it or in the timeout reply of
    a poll for it. *)
Theorem link_rfid_persistence_failure data env st session :
  is_scan data = true →
  WAITING_FOR_SCAN st ≠ [] →
  persistence_succeeds env = false →
  ∃ reason st',
    link_rfid data env st session
    = (Reply [("status", JStr "error"); ("message", JStr reason)] 500,
       st', session)
    ∧ WAITING_FOR_SCAN st' = WAITING_FOR_SCAN st
    ∧ (∀ data2 env2 session2,
         (link_rfid data2 env2 st' session2).1.1
         = (link_rfid data2 env2 st session2).1.1
         ∧ WAITING_FOR_SCAN (link_rfid data2 env2 st' session2).1.2
           = WAITING_FOR_SCAN (link_rfid data2 env2 st session2).1.2)
    ∧ (∀ evs c req env' k,
         is_Some (Dict.get k (waiting (run boot evs))) →
         Dict.get k (waiting (step (run boot evs) c req env').2) = None →
         (∃ data', req = POST_link_rfid data'
            ∧ (step (run boot evs) c req env').1 = linked_reply k (read_back env'))
         ∨ (req = GET_check_status k
            ∧ (step (run boot evs) c req env').1 = timeout_reply)).
Proof.
  intros Hscan Hne Hfail.
  destruct (oldest_is_oldest _ Hne) as (k & e & Hk & Hold).
  pose proof (link_rfid_scan data env st session k e Hscan Hk (proj1 Hold)) as Hl.
  cbv zeta in Hl.
  pose proof (link_uid_to_student_success (row_index e) (scanned_code data)
                (name e) env st) as Hs.
  pose proof (link_uid_to_student_waiting (row_index e) (scanned_code data)
                (name e) env st) as Hw.
  destruct (link_uid_to_student_failed (row_index e) (scanned_code data)
              (name e) env st Hfail) as [reason Hr].
  destruct (link_uid_to_student _ _ _ _ _) as [[ok nm] st1].
  simpl in *. injection Hr as -> ->.
  exists reason, st1. split; [done|]. split; [done|]. split.
  - intros data2 env2 session2.
    destruct (link_rfid_waiting_only data2 env2 st1 st session2 Hw) as (? & ? & _).
    done.
  - intros evs c req env' k' Hin Hout.
    destruct (run_invariant boot evs) as [Hwf _]; [apply boot_invariant..|].
    unfold waiting in *. rewrite server_step in Hout. rewrite outcome_step.
    by apply handle_removal.
Qed.

Lemma link_rfid_persistence_failure_witness :
  ∃ reason st',
    link_rfid (Object (FStr "UID123")) (sheet_raises 20) (server two_waiting)
      no_session
    = (Reply [("status", JStr "error"); ("message", JStr reason)] 500,
       st', no_session)
    ∧ WAITING_FOR_SCAN st' = waiting two_waiting
    ∧ (∀ data2 env2 session2,
         (link_rfid data2 env2 st' session2).1.1
         = (link_rfid data2 env2 (server two_waiting) session2).1.1
         ∧ WAITING_FOR_SCAN (link_rfid data2 env2 st' session2).1.2
           = WAITING_FOR_SCAN (link_rfid data2 env2 (server two_waiting) session2).1.2)
    ∧ (∀ evs c req env' k,
         is_Some (Dict.get k (waiting (run boot evs))) →
         Dict.get k (waiting (step (run boot evs) c req env').2) = None →
         (∃ data', req = POST_link_rfid data'
            ∧ (step (run boot evs) c req env').1 = linked_reply k (read_back env'))
         ∨ (req = GET_check_status k
            ∧ (step (run boot evs) c req env').1 = timeout_reply)).
Proof.
  apply (link_rfid_persistence_failure (Object (FStr "UID123")) (sheet_raises 20)
           (server two_waiting) no_session).
  - reflexivity.
  - vm_compute. discriminate.
  - reflexivity.
Defined.

(** [link_rfid] never reads the clock: the universal statement that a
    scan on a registry of expired entries evicts them and is answered 404
    fails. *)
Lemma scan_links_stale_entry :
  ¬ (∀ data env st session,
       is_scan data = true →
       WAITING_FOR_SCAN st ≠ [] →
       (∀ k e, Dict.get k (WAITING_FOR_SCAN st) = Some e →
               is_expired e (clock env) = true) →
       (link_rfid data env st session).1.1 = no_active_session
       ∧ WAITING_FOR_SCAN (link_rfid data env st session).1.2 = []).
Proof.
  intros Hclaim.
  destruct (Hclaim (Object (FStr "UID123")) (sheet_ok 1000 "0" (Some "Alice"))
              (server one_waiting) no_session) as [Hreply _].
  - reflexivity.
  - vm_compute. discriminate.
  - intros k e.
    change (WAITING_FOR_SCAN (server one_waiting))
      with [("R1", mkPending "Alice" 0 2)].
    simpl. case_decide; [|discriminate]. intros [= <-]. vm_compute. reflexivity.
  - vm_compute in Hreply. discriminate.
Qed.

(** C2, evaluated.  Alice registered R1 at clock 0 and nobody polled.  At
    clock 1000 her entry is past the timeout: a poll for R1 would pop it
    and be answered "Linking session timed out.".  A scan at that clock is
    not answered "No active linking session found."; it is answered
    "linked" for R1, the scanned code is written to the row of the stale
    entry, and the entry leaves the registry as linked. *)
Theorem scan_links_expired_entry :
  Dict.get "R1" (waiting one_waiting) = Some (mkPending "Alice" 0 2)
  ∧ is_expired (mkPending "Alice" 0 2) 1000 = true
  ∧ (check_status "R1" (sheet_ok 1000 "0" None) (server one_waiting) no_session).1.1
    = timeout_reply
  ∧ link_rfid (Object (FStr "UID123")) (sheet_ok 1000 "0" (Some "Alice"))
      (server one_waiting) no_session
    = (linked_reply "R1" (Some "Alice"),
       mkState []
         (sheet_calls (server one_waiting)
          ++ [update_cell 2 3 "UID123" (Py.Returns tt)]),
       mkSession None (Some "R1"))
  ∧ (link_rfid (Object (FStr "UID123")) (sheet_ok 1000 "0" (Some "Alice"))
       (server one_waiting) no_session).1.1
    ≠ no_active_session.
Proof. split_and!; try (vm_compute; reflexivity). vm_compute. discriminate. Qed.

(** ** Status polling *)

Lemma check_status_absent reg_no env st session :
  Dict.get reg_no (WAITING_FOR_SCAN st) = None →
  check_status reg_no env st session =
    if decide (linked_reg_no session = Some reg_no)
    then (card_linked, st, mkSession (waiting_reg_no session) None)
    else (session_expired, st, session).
Proof. intros Hg. unfold check_status. by rewrite Hg. Qed.

Lemma check_status_bound reg_no entry env st session :
  Dict.get reg_no (WAITING_FOR_SCAN st) = Some entry →
  check_status reg_no env st session =
    if is_expired entry (clock env)
    then (timeout_reply,
          with_waiting (Dict.pop reg_no (WAITING_FOR_SCAN st)) st,
          mkSession None (linked_reg_no session))
    else (still_waiting, st, session).
Proof. intros Hg. unfold check_status. by rewrite Hg. Qed.

Lemma is_expired_spec entry now :
  is_expired entry now = true
  ↔ (TIMEOUT_SECONDS < Float.sub now (timestamp entry))%Q.
Proof. apply Qltb_lt. Qed.

Lemma is_expired_not entry now :
  is_expired entry now = false
  ↔ (Float.sub now (timestamp entry) <= TIMEOUT_SECONDS)%Q.
Proof. apply Qltb_ge. Qed.

(** *** Rounding never carries a difference across the timeout *)

Lemma div_half_even_nonneg n d :
  (0 <= n)%Z → (0 < d)%Z → (0 <= Float.div_half_even n d)%Z.
Proof.
  intros Hn Hd. unfold Float.div_half_even.
  pose proof (Z.div_pos n d Hn Hd).
  destruct (2 * (n mod d) ?= d)%Z; [destruct (Z.even _)|..]; lia.
Qed.

Lemma div_half_even_le n d m :
  (0 <= n)%Z → (0 < d)%Z → (n <= m * d)%Z → (Float.div_half_even n d <= m)%Z.
Proof.
  intros Hn Hd Hle. unfold Float.div_half_even.
  pose proof (Z.div_mod n d ltac:(lia)) as Hdm.
  pose proof (Z.mod_pos_bound n d Hd) as Hr.
  assert (n / d <= m)%Z as Hq by nia.
  destruct (2 * (n mod d) ?= d)%Z eqn:Hc; [|done|].
  - apply Z.compare_eq in Hc.
    assert (n / d < m)%Z by nia.
    destruct (Z.even _); lia.
  - apply Z.compare_gt_iff in Hc.
    assert (n / d < m)%Z by nia. lia.
Qed.

Lemma ilog2_le n d :
  (0 < n)%Z → (0 < d)%Z → (n <= 300 * d)%Z → (Float.ilog2 n d <= 9)%Z.
Proof.
  intros Hn Hd Hle.
  assert (Z.log2 n <= 9 + Z.log2 d)%Z as Hlog.
  { rewrite <- (Z.log2_mul_pow2 d 9) by lia.
    apply Z.log2_le_mono. lia. }
  unfold Float.ilog2. destruct (Float.pow2_le _ _ _); lia.
Qed.

Lemma round_pos_nonneg n d :
  (0 < n)%Z → (0 < d)%Z → (0 <= Float.round_pos n d)%Q.
Proof.
  intros Hn Hd. unfold Float.round_pos.
  set (e := Z.max _ _). destruct (0 <=? e)%Z eqn:He.
  - apply Z.leb_le in He. unfold Qle, inject_Z. simpl.
    pose proof (div_half_even_nonneg n (d * 2 ^ e)).
    pose proof (Z.pow_pos_nonneg 2 e). nia.
  - unfold Qle. simpl.
    pose proof (Z.pow_pos_nonneg 2 (- e)).
    pose proof (div_half_even_nonneg (n * 2 ^ (- e)) d).
    apply Z.leb_gt in He. nia.
Qed.

Lemma round_pos_le_timeout n d :
  (0 < n)%Z → (0 < d)%Z → (n <= 300 * d)%Z →
  (Float.round_pos n d <= TIMEOUT_SECONDS)%Q.
Proof.
  intros Hn Hd Hle. unfold Float.round_pos.
  pose proof (ilog2_le n d Hn Hd Hle) as Hlog.
  set (e := Z.max _ _).
  assert (e < 0)%Z as He by (unfold e, Float.precision, Float.emin; lia).
  assert ((0 <=? e)%Z = false) as -> by (apply Z.leb_gt; lia).
  pose proof (Z.pow_pos_nonneg 2 (- e) ltac:(lia) ltac:(lia)) as Hpow.
  unfold Qle, TIMEOUT_SECONDS. simpl Qnum. simpl Qden.
  rewrite Z2Pos.id by done.
  pose proof (div_half_even_le (n * 2 ^ (- e)) d (300 * 2 ^ (- e))
                ltac:(nia) Hd ltac:(nia)).
  lia.
Qed.

(** A difference that is at most the timeout rounds to at most the
    timeout: the poll never times out early. *)
Lemma float_sub_le_timeout x y :
  (x - y <= TIMEOUT_SECONDS)%Q → (Float.sub x y <= TIMEOUT_SECONDS)%Q.
Proof.
  unfold Float.sub, Float.round. destruct (x - y)%Q as [n d]. simpl.
  intros Hle. destruct n as [|n|n].
  - done.
  - apply round_pos_le_timeout; try done.
    unfold Qle, TIMEOUT_SECONDS in Hle. simpl in Hle. lia.
  - pose proof (round_pos_nonneg (Z.pos n) (Z.pos d) ltac:(done) ltac:(done)) as H0.
    unfold TIMEOUT_SECONDS.
    apply Qle_trans with 0%Q; [|done].
    apply (Qopp_le_compat 0) in H0. exact H0.
Qed.

(** C5. A registration older than the timeout, strictly, as line 130
    computes its age (the float difference [time.time() - timestamp]), is
    popped by the first poll for it, which is answered "timeout" with HTTP
    status 408; its exact age is then above 300 seconds too.  With the
    computed age at the timeout exactly, or below, and with any exact age
    of at most 300 seconds, the poll is answered "waiting" and nothing is
    popped.  After the timeout reply the register number is out of the
    registry and stays out through whatever requests come, until a request
    submits it again; no poll for it is answered "timeout" in the
    meantime: each is answered with HTTP status 200. *)
Theorem check_status_timeout_once reg_no entry env st session :
  Dict.wf (WAITING_FOR_SCAN st) →
  Dict.get reg_no (WAITING_FOR_SCAN st) = Some entry →
  (TIMEOUT_SECONDS < Float.sub (clock env) (timestamp entry))%Q →
  ∃ st' session',
    check_status reg_no env st session
    = (Reply [("status", JStr "timeout");
              ("message", JStr "Linking session timed out.")] 408,
       st', session')
    ∧ WAITING_FOR_SCAN st' = Dict.pop reg_no (WAITING_FOR_SCAN st)
    ∧ Dict.get reg_no (WAITING_FOR_SCAN st') = None
    ∧ (∀ k, k ≠ reg_no →
         Dict.get k (WAITING_FOR_SCAN st') = Dict.get k (WAITING_FOR_SCAN st))
    ∧ (TIMEOUT_SECONDS < clock env - timestamp entry)%Q
    ∧ (∀ env0,
         (Float.sub (clock env0) (timestamp entry) <= TIMEOUT_SECONDS)%Q
         ∨ (clock env0 - timestamp entry <= TIMEOUT_SECONDS)%Q →
         check_status reg_no env0 st session = (still_waiting, st, session))
    ∧ (∀ w evs c env2,
         waiting w = WAITING_FOR_SCAN st' →
         Forall (λ ev, ¬ registers reg_no (request ev)) evs →
         Dict.get reg_no (waiting (run w evs)) = None
         ∧ status_of (step (run w evs) c (GET_check_status reg_no) env2).1
           ≠ Some (JStr "timeout")
         ∧ http_of (step (run w evs) c (GET_check_status reg_no) env2).1
           = Some 200%N
         ∧ waiting (step (run w evs) c (GET_check_status reg_no) env2).2
           = waiting (run w evs)).
Proof.
  intros Hwf Hg Hexp.
  assert (TIMEOUT_SECONDS < clock env - timestamp entry)%Q as Hexact.
  { apply Qnot_le_lt. intros Hle. apply float_sub_le_timeout in Hle.
    by apply Qle_not_lt in Hle. }
  apply is_expired_spec in Hexp.
  rewrite (check_status_bound _ _ _ _ _ Hg), Hexp.
  eexists _, _. split; [reflexivity|]. cbn.
  assert (Dict.get reg_no (Dict.pop reg_no (WAITING_FOR_SCAN st)) = None) as Hgone
    by by apply get_pop_eq.
  split_and!; try done.
  - intros k Hk. by apply get_pop_ne.
  - intros env0 Hle.
    assert (is_expired entry (clock env0) = false) as Hno.
    { apply is_expired_not. destruct Hle as [Hle|Hle]; [done|].
      by apply float_sub_le_timeout. }
    by rewrite (check_status_bound _ _ _ _ _ Hg), Hno.
  - intros w evs c env2 Hw Hevs.
    assert (Dict.get reg_no (waiting (run w evs)) = None) as Hstill.
    { apply run_absent; [|done]. by rewrite Hw. }
    split; [done|]. unfold waiting in *.
    rewrite outcome_step, server_step. simpl.
    rewrite (check_status_absent _ _ _ _ Hstill).
    by case_decide.
Qed.

Lemma check_status_timeout_once_witness :
  ∃ st' session',
    check_status "R1" (sheet_ok 301 "0" None) (server one_waiting)
      (session_of one_waiting browser_a)
    = (Reply [("status", JStr "timeout");
              ("message", JStr "Linking session timed out.")] 408,
       st', session')
    ∧ WAITING_FOR_SCAN st' = Dict.pop "R1" (waiting one_waiting)
    ∧ Dict.get "R1" (WAITING_FOR_SCAN st') = None
    ∧ (∀ k, k ≠ "R1" →
         Dict.get k (WAITING_FOR_SCAN st') = Dict.get k (waiting one_waiting))
    ∧ (TIMEOUT_SECONDS < 301 - 0)%Q
    ∧ (∀ env0,
         (Float.sub (clock env0) (timestamp (mkPending "Alice" 0 2))
          <= TIMEOUT_SECONDS)%Q
         ∨ (clock env0 - timestamp (mkPending "Alice" 0 2) <= TIMEOUT_SECONDS)%Q →
         check_status "R1" env0 (server one_waiting) (session_of one_waiting browser_a)
         = (still_waiting, server one_waiting, session_of one_waiting browser_a))
    ∧ (∀ w evs c env2,
         waiting w = WAITING_FOR_SCAN st' →
         Forall (λ ev, ¬ registers "R1" (request ev)) evs →
         Dict.get "R1" (waiting (run w evs)) = None
         ∧ status_of (step (run w evs) c (GET_check_status "R1") env2).1
           ≠ Some (JStr "timeout")
         ∧ http_of (step (run w evs) c (GET_check_status "R1") env2).1
           = Some 200%N
         ∧ waiting (step (run w evs) c (GET_check_status "R1") env2).2
           = waiting (run w evs)).
Proof.
  apply (check_status_timeout_once "R1" (mkPending "Alice" 0 2)
           (sheet_ok 301 "0" None) (server one_waiting)
           (session_of one_waiting browser_a)).
  - decide_by_eval.
  - reflexivity.
  - vm_compute. reflexivity.
Defined.

(** At the rounding boundary.  The floats nearest to 0.1 and to 300.1
    differ by more than 300, by less than half a unit in the last place of
    300: line 130 computes exactly 300.0 and the poll is answered
    "waiting". *)
Example poll_at_rounding_boundary :
  (300 < (2639707515964621 # 8796093022208)
         - (3602879701896397 # 36028797018963968))%Q
  ∧ (Float.sub (2639707515964621 # 8796093022208)
       (3602879701896397 # 36028797018963968) == 300)%Q
  ∧ (check_status "R1"
       (sheet_ok (2639707515964621 # 8796093022208) "0" None)
       (mkState
          [("R1", mkPending "Alice" (3602879701896397 # 36028797018963968) 2)]
          [])
       no_session).1.1
    = still_waiting.
Proof. split_and!; vm_compute; reflexivity. Qed.

(** ** Registration *)

Lemma wf_at_most_one {V} (d : Dict.dict V) (k : string) :
  Dict.wf d → (length (filter (λ kv, kv.1 = k) d) ≤ 1)%nat.
Proof.
  unfold Dict.wf, Dict.keys. induction d as [|[k0 v0] d IH]; [simpl; lia|].
  rewrite fmap_cons, NoDup_cons. intros [Hin Hd].
  destruct (decide (k0 = k)) as [->|Hne].
  - rewrite filter_cons_True by done.
    assert (filter (λ kv : string * V, kv.1 = k) d = []) as ->; [|simpl; lia].
    apply filter_Forall_nil. apply Forall_forall. intros [k1 v1] Hx Heq.
    simpl in Heq. subst k1. apply Hin. apply list_elem_of_fmap. by exists (k, v1).
  - rewrite filter_cons_False by done. auto.
Qed.

(** C9. When the form of a [/register] request lacks the field [name] or
    the field [reg_no], [.strip()] is called on [None]: the handler ends
    in an [AttributeError] that nothing catches, with the state and the
    session as they were, and this is the only way it ends so.  The reply
    "Name and Register Number are required." is given exactly when both
    fields are there and one of them is blank after trimming. *)
Theorem register_missing_field_raises n r env st session :
  (n = None ∨ r = None ↔
   register n r env st session
   = (Uncaught "AttributeError: 'NoneType' object has no attribute 'strip'",
      st, session))
  ∧ ((register n r env st session).1.1 = invalid_input ↔
     ∃ n' r', n = Some n' ∧ r = Some r'
              ∧ (Py.strip n' = EmptyString ∨ Py.strip r' = EmptyString)).
Proof.
  unfold register.
  destruct n as [n'|].
  2: { split; [split; [done | by left]|].
       split; [done | by intros (? & ? & ? & _)]. }
  destruct r as [r'|].
  2: { split; [split; [done | by right]|].
       split; [done | by intros (? & ? & _ & ? & _)]. }
  destruct (Py.truthy (Py.strip n')) eqn:Hn; simpl.
  2: { apply truthy_false in Hn.
       split; [split; [by intros [|] | done]|].
       split; [intros _; exists n', r'; auto | done]. }
  destruct (Py.truthy (Py.strip r')) eqn:Hr; simpl.
  2: { apply truthy_false in Hr.
       split; [split; [by intros [|] | done]|].
       split; [intros _; exists n', r'; auto | done]. }
  apply truthy_true in Hn, Hr.
  assert (¬ ∃ n0 r0, Some n' = Some n0 ∧ Some r' = Some r0
                     ∧ (Py.strip n0 = EmptyString ∨ Py.strip r0 = EmptyString))
    as Hno.
  { intros (n0 & r0 & [= <-] & [= <-] & [?|?]); done. }
  destruct (get_sheet env); simpl.
  2: { split; [split; [by intros [|] | done]|]. split; [done | by intros ?]. }
  destruct (append_row_result env) as [rng|e].
  2: { split; [split; [by intros [|] | done]|]. split; [done | by intros ?]. }
  destruct (Py.int _);
    (split; [split; [by intros [|] | done]|]; split; [done | by intros ?]).
Qed.

Lemma register_missing_field_raises_witness :
  register None (Some "R1") (sheet_ok 0 "2" None) (server boot) no_session
  = (Uncaught "AttributeError: 'NoneType' object has no attribute 'strip'",
     server boot, no_session).
Proof.
  apply (proj1 (proj1 (register_missing_field_raises None (Some "R1")
                         (sheet_ok 0 "2" None) (server boot) no_session))).
  left. reflexivity.
Defined.

(** C6. [register] fails without touching the registry.  With a name or a
    register number blank after trimming, the reply is "Name and Register
    Number are required." and neither the state (so no row is appended)
    nor the session changes.  With the worksheet out of reach the reply is
    a 500 one and nothing changes either.  When the append raises, the
    reply is a 500 one and the registry is as it was.  In general a reply
    other than "waiting" leaves registry and session as they were.  Hence,
    on every state the server can reach, every entry of the registry has
    its backing record: an append that returned, with that register number
    and that name. *)
Theorem register_failures_keep_registry n r env st session :
  (Py.strip n = EmptyString ∨ Py.strip r = EmptyString →
   register (Some n) (Some r) env st session = (invalid_input, st, session))
  ∧ (Py.strip n ≠ EmptyString → Py.strip r ≠ EmptyString →
     get_sheet env = false →
     register (Some n) (Some r) env st session
     = (Reply [("status", JStr "error");
               ("message", JStr "Could not connect to database.")] 500,
        st, session))
  ∧ (∀ e, Py.strip n ≠ EmptyString → Py.strip r ≠ EmptyString →
     get_sheet env = true →
     append_row_result env = Py.Raises e →
     register (Some n) (Some r) env st session
     = (Reply [("status", JStr "error");
               ("message", JStr ("Failed to save registration data: " +:+ e))] 500,
        mkState (WAITING_FOR_SCAN st)
          (sheet_calls st
           ++ [append_row [Py.strip r; Py.strip n; EmptyString; today env]
                 (Py.Raises e)]),
        session))
  ∧ (∀ n0 r0,
       status_of (register n0 r0 env st session).1.1 ≠ Some (JStr "waiting") →
       WAITING_FOR_SCAN (register n0 r0 env st session).1.2 = WAITING_FOR_SCAN st
       ∧ (register n0 r0 env st session).2 = session)
  ∧ (∀ evs k entry,
       Dict.get k (waiting (run boot evs)) = Some entry →
       backed (server (run boot evs)) k entry).
Proof.
  split_and!.
  - intros Hblank. unfold register.
    destruct Hblank as [->| ->]; [done|].
    by destruct (Py.truthy (Py.strip n)).
  - intros Hn%truthy_true Hr%truthy_true Hdown. unfold register.
    by rewrite Hn, Hr, Hdown.
  - intros e Hn%truthy_true Hr%truthy_true Hup Happ. unfold register.
    by rewrite Hn, Hr, Hup, Happ.
  - intros n0 r0 Hst.
    destruct (register_cases n0 r0 env st session)
      as [(? & _ & ?)|(n' & r' & rng & idx & _ & _ & _ & _ & _ & _ & _ & Heq)];
      [done|].
    by rewrite Heq in Hst.
  - intros evs.
    destruct (run_invariant boot evs) as [_ Hb]; [apply boot_invariant..|].
    exact Hb.
Qed.

Lemma register_failures_keep_registry_witness :
  register (Some "   ") (Some "R9") (sheet_ok 30 "4" None) (server two_waiting)
    no_session
  = (invalid_input, server two_waiting, no_session)
  ∧ register (Some "Eve") (Some "R9") (sheet_down 30) (server two_waiting)
      no_session
    = (Reply [("status", JStr "error");
              ("message", JStr "Could not connect to database.")] 500,
       server two_waiting, no_session)
  ∧ register (Some "Eve") (Some "R9") (sheet_raises 30) (server two_waiting)
      no_session
    = (Reply [("status", JStr "error");
              ("message",
               JStr "Failed to save registration data: APIError 503")] 500,
       mkState (waiting two_waiting)
         (sheet_calls (server two_waiting)
          ++ [append_row ["R9"; "Eve"; EmptyString; "2025-03-01 09:00:00"]
                (Py.Raises "APIError 503")]),
       no_session).
Proof.
  split_and!.
  - apply (proj1 (register_failures_keep_registry "   " "R9"
                    (sheet_ok 30 "4" None) (server two_waiting) no_session)).
    left. reflexivity.
  - apply (proj1 (proj2 (register_failures_keep_registry "Eve" "R9"
                           (sheet_down 30) (server two_waiting) no_session)));
      [discriminate | discriminate | reflexivity].
  - apply (proj1 (proj2 (proj2 (register_failures_keep_registry "Eve" "R9"
                                  (sheet_raises 30) (server two_waiting)
                                  no_session))) "APIError 503");
      [discriminate | discriminate | reflexivity | reflexivity].
Defined.

(** C8. Through every sequence of requests the registry binds each
    register number at most once.  A registration that goes through
    stores, under the trimmed register number, the trimmed name, the clock
    reading and the row index of this request; a register number that was
    already waiting keeps its place and loses its former entry, so the
    registry does not grow; every other register number is bound as
    before. *)
Theorem register_last_insert_wins n r env st session rng idx :
  Dict.wf (WAITING_FOR_SCAN st) →
  Py.strip n ≠ EmptyString →
  Py.strip r ≠ EmptyString →
  get_sheet env = true →
  append_row_result env = Py.Returns rng →
  Py.int (Py.filter Py.isdigit rng) = Py.Returns idx →
  ∃ st',
    register (Some n) (Some r) env st session
    = (Reply [("status", JStr "waiting");
              ("message", JStr ("Student " +:+ Py.strip n +:+
                                " registered. Waiting for RFID scan..."));
              ("reg_no", JStr (Py.strip r))] 200,
       st', mkSession (Some (Py.strip r)) (linked_reg_no session))
    ∧ Dict.get (Py.strip r) (WAITING_FOR_SCAN st')
      = Some (mkPending (Py.strip n) (clock env) idx)
    ∧ (∀ k, k ≠ Py.strip r →
         Dict.get k (WAITING_FOR_SCAN st') = Dict.get k (WAITING_FOR_SCAN st))
    ∧ Dict.keys (WAITING_FOR_SCAN st')
      = (if Dict.contains (Py.strip r) (WAITING_FOR_SCAN st)
         then Dict.keys (WAITING_FOR_SCAN st)
         else Dict.keys (WAITING_FOR_SCAN st) ++ [Py.strip r])
    ∧ length (filter (λ kv, kv.1 = Py.strip r) (WAITING_FOR_SCAN st')) = 1
    ∧ (∀ evs k,
         (length (filter (λ kv, kv.1 = k) (waiting (run boot evs))) ≤ 1)%nat).
Proof.
  intros Hwf Hn%truthy_true Hr%truthy_true Hup Happ Hidx.
  unfold register. rewrite Hn, Hr, Hup, Happ, Hidx. cbn.
  eexists. split; [reflexivity|]. cbn.
  split_and!.
  - apply get_set_eq.
  - intros k Hk. by apply get_set_ne.
  - apply keys_set.
  - pose proof (wf_at_most_one
                  (Dict.set (Py.strip r) (mkPending (Py.strip n) (clock env) idx)
                     (WAITING_FOR_SCAN st)) (Py.strip r)) as Hle.
    specialize (Hle (wf_set _ _ _ Hwf)).
    assert (0 < length (filter (λ kv : string * Pending, kv.1 = Py.strip r)
                          (Dict.set (Py.strip r)
                             (mkPending (Py.strip n) (clock env) idx)
                             (WAITING_FOR_SCAN st))))%nat; [|lia].
    pose proof (get_set_eq (Py.strip r) (mkPending (Py.strip n) (clock env) idx)
                  (WAITING_FOR_SCAN st)) as Hget.
    apply get_Some_elem in Hget.
    assert ((Py.strip r, mkPending (Py.strip n) (clock env) idx)
            ∈ filter (λ kv : string * Pending, kv.1 = Py.strip r)
                (Dict.set (Py.strip r) (mkPending (Py.strip n) (clock env) idx)
                   (WAITING_FOR_SCAN st))) as Hin
      by (apply list_elem_of_filter; by split).
    destruct (filter _ _); [inversion Hin | simpl; lia].
  - intros evs k. apply wf_at_most_one.
    by destruct (run_invariant boot evs) as [? _]; [apply boot_invariant..|].
Qed.

Lemma register_last_insert_wins_witness :
  ∃ st',
    register (Some "Alicia") (Some " R1") (sheet_ok 50 "9" None)
      (server two_waiting) no_session
    = (Reply [("status", JStr "waiting");
              ("message",
               JStr "Student Alicia registered. Waiting for RFID scan...");
              ("reg_no", JStr "R1")] 200,
       st', mkSession (Some "R1") None)
    ∧ Dict.get "R1" (WAITING_FOR_SCAN st') = Some (mkPending "Alicia" 50 9)
    ∧ (∀ k, k ≠ "R1" →
         Dict.get k (WAITING_FOR_SCAN st') = Dict.get k (waiting two_waiting))
    ∧ Dict.keys (WAITING_FOR_SCAN st') = ["R1"; "R2"]
    ∧ length (filter (λ kv, kv.1 = "R1") (WAITING_FOR_SCAN st')) = 1
    ∧ (∀ evs k,
         (length (filter (λ kv, kv.1 = k) (waiting (run boot evs))) ≤ 1)%nat).
Proof.
  apply (register_last_insert_wins "Alicia" " R1" (sheet_ok 50 "9" None)
           (server two_waiting) no_session "Students!A9" 9%N).
  - decide_by_eval.
  - discriminate.
  - discriminate.
  - reflexivity.
  - reflexivity.
  - reflexivity.
Defined.

(** ** The linked signal *)

Lemma linked_reply_key k k' a a' :
  linked_reply k a = linked_reply k' a' → k = k'.
Proof. unfold linked_reply. congruence. Qed.

(** The linked signal is written into the session of the caller of
    [/link_rfid]; the session of every other caller is as it was. *)
Lemma link_signal_stays_with_scanner w c data env k result_name :
  (step w c (POST_link_rfid data) env).1 = linked_reply k result_name →
  linked_reg_no (session_of (step w c (POST_link_rfid data) env).2 c) = Some k
  ∧ ∀ c', c ≠ c' →
      session_of (step w c (POST_link_rfid data) env).2 c' = session_of w c'.
Proof.
  intros Hout. split; [|intros c' Hc'; by apply session_step_ne].
  rewrite session_step_eq. rewrite outcome_step in Hout. simpl in *.
  destruct (link_rfid_cases data env (server w) (session_of w c))
    as [(_ & Hst)|(k0 & e0 & _ & _ & _ & Heq)].
  - rewrite Hout in Hst. done.
  - rewrite Heq in Hout |- *. simpl in *.
    by apply linked_reply_key in Hout as ->.
Qed.

(** A poll by the caller that posted the scan gets the signal, once. *)
Lemma scanner_reads_link_signal w c data env k result_name env1 env2 :
  Dict.wf (waiting w) →
  (step w c (POST_link_rfid data) env).1 = linked_reply k result_name →
  let w1 := (step w c (POST_link_rfid data) env).2 in
  (step w1 c (GET_check_status k) env1).1 = card_linked
  ∧ (step (step w1 c (GET_check_status k) env1).2 c (GET_check_status k) env2).1
    = session_expired.
Proof.
  intros Hwf Hout w1.
  destruct (link_signal_stays_with_scanner w c data env k result_name Hout)
    as [Hsig _]. fold w1 in Hsig.
  assert (Dict.get k (waiting w1) = None) as Hgone.
  { unfold w1, waiting. rewrite server_step. rewrite outcome_step in Hout.
    simpl in *.
    destruct (link_rfid_cases data env (server w) (session_of w c))
      as [(_ & Hst)|(k0 & e0 & _ & _ & _ & Heq)].
    - rewrite Hout in Hst. done.
    - rewrite Heq in Hout |- *. simpl in *.
      apply linked_reply_key in Hout as ->. by apply get_pop_eq. }
  unfold waiting in Hgone.
  assert ((step w1 c (GET_check_status k) env1).1 = card_linked
          ∧ server (step w1 c (GET_check_status k) env1).2 = server w1
          ∧ linked_reg_no (session_of (step w1 c (GET_check_status k) env1).2 c)
            = None) as (Hfirst & Hsrv & Hsess).
  { rewrite outcome_step, server_step, session_step_eq. simpl.
    rewrite (check_status_absent _ _ _ _ Hgone).
    by rewrite decide_True. }
  split; [done|].
  rewrite outcome_step. simpl. rewrite Hsrv.
  rewrite (check_status_absent _ _ _ _ Hgone).
  rewrite decide_False; [done|]. by rewrite Hsess.
Qed.

(** A poll by any other caller, the browser that registered included, does
    not: unless its own session already held the signal, it is answered
    "Session expired or invalid.". *)
Lemma browser_misses_link_signal w c c' data env k result_name env1 :
  Dict.wf (waiting w) →
  (step w c (POST_link_rfid data) env).1 = linked_reply k result_name →
  c ≠ c' →
  linked_reg_no (session_of w c') ≠ Some k →
  (step (step w c (POST_link_rfid data) env).2 c' (GET_check_status k) env1).1
  = session_expired.
Proof.
  intros Hwf Hout Hc' Hnone.
  destruct (link_signal_stays_with_scanner w c data env k result_name Hout)
    as [_ Hother].
  rewrite outcome_step. simpl. rewrite (Hother c' Hc').
  rewrite check_status_absent.
  - by rewrite decide_False.
  - rewrite server_step. rewrite outcome_step in Hout. simpl in *.
    destruct (link_rfid_cases data env (server w) (session_of w c))
      as [(_ & Hst)|(k0 & e0 & _ & _ & _ & Heq)].
    + rewrite Hout in Hst. done.
    + rewrite Heq in Hout |- *. simpl in *.
      apply linked_reply_key in Hout as ->. by apply get_pop_eq.
Qed.

(** C1, evaluated.  Alice registers R1 from her browser and the scanner
    posts her card: the scan is answered "linked" for R1 and R1 leaves the
    registry.  Her browser still holds the session that submitted R1, and
    its next poll for R1 is answered "Session expired or invalid.", not
    "linked"; the signal sits in the session of the scanner, whose poll
    for R1 would be answered "linked". *)
Theorem browser_poll_after_link :
  (step one_waiting scanner (POST_link_rfid (Object (FStr "UID123")))
     (sheet_ok 1 "0" (Some "Alice"))).1
  = linked_reply "R1" (Some "Alice")
  ∧ Dict.get "R1" (waiting alice_linked) = None
  ∧ session_of alice_linked browser_a = mkSession (Some "R1") None
  ∧ session_of alice_linked scanner = mkSession None (Some "R1")
  ∧ (step alice_linked browser_a (GET_check_status "R1") (sheet_ok 2 "0" None)).1
    = Reply [("status", JStr "error");
             ("message", JStr "Session expired or invalid.")] 200
  ∧ (step alice_linked scanner (GET_check_status "R1") (sheet_ok 2 "0" None)).1
    = Reply [("status", JStr "linked");
             ("message", JStr "Card linked successfully!")] 200.
Proof. split_and!; vm_compute; reflexivity. Qed.

(** * Further properties of the handlers *)

(** ** [strip] and the reading of the row index *)

Lemma rstrip_cons_nonspace c t :
  Py.isspace c = false → Py.rstrip (String c t) = String c (Py.rstrip t).
Proof. intros Hc. simpl. rewrite Hc. by destruct (Py.rstrip t). Qed.

Lemma rstrip_idem s : Py.rstrip (Py.rstrip s) = Py.rstrip s.
Proof.
  induction s as [|c t IH]; [done|]. simpl.
  destruct (Py.rstrip t) as [|c' r] eqn:Hr.
  - destruct (Py.isspace c) eqn:Hc; [done|]. simpl. by rewrite Hc.
  - change (Py.rstrip (String c (String c' r))) with
      (match Py.rstrip (String c' r) with
       | EmptyString => if Py.isspace c then EmptyString else String c EmptyString
       | r0 => String c r0
       end).
    by rewrite IH.
Qed.

Lemma lstrip_shape s :
  Py.lstrip s = EmptyString
  ∨ ∃ c t, Py.lstrip s = String c t ∧ Py.isspace c = false.
Proof.
  induction s as [|c t IH]; [by left|]. simpl.
  destruct (Py.isspace c) eqn:Hc; [done|]. right. by exists c, t.
Qed.

Lemma strip_idem s : Py.strip (Py.strip s) = Py.strip s.
Proof.
  unfold Py.strip. destruct (lstrip_shape s) as [->|(c & t & -> & Hc)]; [done|].
  rewrite (rstrip_cons_nonspace c t Hc). simpl Py.lstrip. rewrite Hc.
  rewrite (rstrip_cons_nonspace c _ Hc). by rewrite rstrip_idem.
Qed.

Lemma strip_trimmed s : Py.strip s ≠ EmptyString → trimmed (Py.strip s).
Proof. intros Hs. split; [done | apply strip_idem]. Qed.

Lemma filter_append p a b :
  Py.filter p (a +:+ b) = Py.filter p a +:+ Py.filter p b.
Proof.
  induction a as [|c a IH]; [done|]. simpl.
  destruct (p c); simpl; by rewrite IH.
Qed.

Lemma filter_decimal d : Py.all Py.isdecimal d = true → Py.filter Py.isdigit d = d.
Proof.
  induction d as [|c d IH]; [done|]. simpl.
  intros [Hc Hd]%andb_true_iff.
  assert (Py.isdigit c = true) as ->.
  { unfold Py.isdigit, Py.isdecimal in *. by rewrite Hc. }
  by rewrite IH.
Qed.

Lemma all_append p a b : Py.all p (a +:+ b) = Py.all p a && Py.all p b.
Proof.
  induction a as [|c a IH]; [done|]. simpl. by rewrite IH, andb_assoc.
Qed.

Lemma decimal_value_append acc a b :
  Py.decimal_value acc (a +:+ b) = Py.decimal_value (Py.decimal_value acc a) b.
Proof. revert acc. induction a as [|c a IH]; intros acc; [done|]. apply IH. Qed.

Lemma decimal_value_acc acc d :
  Py.decimal_value acc d
  = (acc * 10 ^ N.of_nat (String.length d) + Py.decimal_value 0 d)%N.
Proof.
  revert acc. induction d as [|c d IH]; intros acc.
  - simpl. lia.
  - cbn [Py.decimal_value String.length].
    rewrite (IH (10 * acc + (Py.ord c - 48))%N), (IH (10 * 0 + (Py.ord c - 48))%N).
    rewrite Nat2N.inj_succ, N.pow_succ_r'. lia.
Qed.

Lemma int_decimal d :
  d ≠ EmptyString → Py.all Py.isdecimal d = true →
  Py.int d = Py.Returns (Py.decimal_value 0 d).
Proof. intros Hd Hall. unfold Py.int. destruct d; [done|]. by rewrite Hall. Qed.

(** The digits of a range spelled [p d1 q d2], where [p] and [q] hold no
    digit and [d1], [d2] are decimal numerals, read as the one numeral
    [d1 d2]. *)
Lemma int_of_range_digits p d1 q d2 :
  Py.filter Py.isdigit p = EmptyString →
  Py.filter Py.isdigit q = EmptyString →
  Py.all Py.isdecimal d1 = true →
  Py.all Py.isdecimal d2 = true →
  d2 ≠ EmptyString →
  Py.int (Py.filter Py.isdigit (p +:+ (d1 +:+ (q +:+ d2))))
  = Py.Returns (Py.decimal_value 0 d1 * 10 ^ N.of_nat (String.length d2)
                + Py.decimal_value 0 d2)%N.
Proof.
  intros Hp Hq H1 H2 Hne.
  rewrite !filter_append, Hp, Hq, !filter_decimal by done.
  change (EmptyString +:+ (d1 +:+ (EmptyString +:+ d2))) with (d1 +:+ d2).
  rewrite int_decimal.
  - rewrite decimal_value_append.
    by rewrite (decimal_value_acc (Py.decimal_value 0 d1) d2).
  - destruct d1; [done | discriminate].
  - by rewrite all_append, H1, H2.
Qed.

(** [register] when everything goes through. *)
Lemma register_success n r env st session rng idx :
  Py.strip n ≠ EmptyString →
  Py.strip r ≠ EmptyString →
  get_sheet env = true →
  append_row_result env = Py.Returns rng →
  Py.int (Py.filter Py.isdigit rng) = Py.Returns idx →
  register (Some n) (Some r) env st session
  = (Reply [("status", JStr "waiting");
            ("message", JStr ("Student " +:+ Py.strip n +:+
                              " registered. Waiting for RFID scan..."));
            ("reg_no", JStr (Py.strip r))] 200,
     mkState
       (Dict.set (Py.strip r) (mkPending (Py.strip n) (clock env) idx)
          (WAITING_FOR_SCAN st))
       (sheet_calls st
        ++ [append_row [Py.strip r; Py.strip n; EmptyString; today env]
              (Py.Returns rng)]),
     mkSession (Some (Py.strip r)) (linked_reg_no session)).
Proof.
  intros Hn%truthy_true Hr%truthy_true Hup Happ Hidx.
  unfold register. by rewrite Hn, Hr, Hup, Happ, Hidx.
Qed.

(** X1. When the append answers with a range of one cell, a prefix
    without digits followed by a decimal numeral, the entry stored under
    the register number carries the value of that numeral as its row
    index. *)
Theorem register_row_of_single_cell n r env st session p d :
  Py.strip n ≠ EmptyString →
  Py.strip r ≠ EmptyString →
  get_sheet env = true →
  append_row_result env = Py.Returns (p +:+ d) →
  Py.filter Py.isdigit p = EmptyString →
  Py.all Py.isdecimal d = true →
  d ≠ EmptyString →
  Dict.get (Py.strip r) (WAITING_FOR_SCAN (register (Some n) (Some r) env st session).1.2)
  = Some (mkPending (Py.strip n) (clock env) (Py.decimal_value 0 d)).
Proof.
  intros Hn Hr Hup Happ Hp Hd Hne.
  pose proof (int_of_range_digits p EmptyString EmptyString d Hp eq_refl eq_refl
                Hd Hne) as Hidx.
  change (p +:+ (EmptyString +:+ (EmptyString +:+ d))) with (p +:+ d) in Hidx.
  rewrite (register_success n r env st session _ _ Hn Hr Hup Happ Hidx).
  simpl. by rewrite get_set_eq.
Qed.

Lemma register_row_of_single_cell_witness :
  Dict.get "R1"
    (WAITING_FOR_SCAN
       (register (Some "Alice") (Some "R1") (sheet_ok 0 "12" None) (server boot)
          no_session).1.2)
  = Some (mkPending "Alice" 0 12).
Proof.
  apply (register_row_of_single_cell "Alice" "R1" (sheet_ok 0 "12" None)
           (server boot) no_session "Students!A" "12"); try reflexivity;
    discriminate.
Defined.

(** X2. The row index is read off all the digits of the range.  When the
    range names a first and a last cell, [p d1 q d2] with [p] and [q] free
    of digits, the index stored is the value of the numeral [d1 d2]: the
    first row number shifted left by the length of the second, plus the
    second.  It is larger than the first row number whenever that one is
    not zero. *)
Theorem register_row_of_cell_range n r env st session p d1 q d2 :
  Py.strip n ≠ EmptyString →
  Py.strip r ≠ EmptyString →
  get_sheet env = true →
  append_row_result env = Py.Returns (p +:+ (d1 +:+ (q +:+ d2))) →
  Py.filter Py.isdigit p = EmptyString →
  Py.filter Py.isdigit q = EmptyString →
  Py.all Py.isdecimal d1 = true →
  Py.all Py.isdecimal d2 = true →
  d2 ≠ EmptyString →
  ∃ idx,
    Dict.get (Py.strip r)
      (WAITING_FOR_SCAN (register (Some n) (Some r) env st session).1.2)
    = Some (mkPending (Py.strip n) (clock env) idx)
    ∧ idx = (Py.decimal_value 0 d1 * 10 ^ N.of_nat (String.length d2)
             + Py.decimal_value 0 d2)%N
    ∧ ((0 < Py.decimal_value 0 d1)%N → (Py.decimal_value 0 d1 < idx)%N).
Proof.
  intros Hn Hr Hup Happ Hp Hq H1 H2 Hne.
  pose proof (int_of_range_digits p d1 q d2 Hp Hq H1 H2 Hne) as Hidx.
  rewrite (register_success n r env st session _ _ Hn Hr Hup Happ Hidx).
  eexists. split; [simpl; apply get_set_eq|]. split; [done|].
  intros Hpos.
  assert (10 ≤ 10 ^ N.of_nat (String.length d2))%N.
  { destruct d2 as [|c d2]; [done|]. cbn [String.length].
    rewrite Nat2N.inj_succ, N.pow_succ_r'.
    pose proof (N.pow_nonzero 10 (N.of_nat (String.length d2))). lia. }
  nia.
Qed.

Lemma register_row_of_cell_range_witness :
  ∃ idx,
    Dict.get "R1"
      (WAITING_FOR_SCAN
         (register (Some "Alice") (Some "R1")
            (mkEnv true (Py.Returns "Students!A5:D5") (Py.Returns tt)
               (Py.Returns None) 0 "2025-03-01 09:00:00")
            (server boot) no_session).1.2)
    = Some (mkPending "Alice" 0 idx)
    ∧ idx = 55%N
    ∧ ((0 < 5)%N → (5 < idx)%N).
Proof.
  apply (register_row_of_cell_range "Alice" "R1"
           (mkEnv true (Py.Returns "Students!A5:D5") (Py.Returns tt)
              (Py.Returns None) 0 "2025-03-01 09:00:00")
           (server boot) no_session "Students!A" "5" ":D" "5");
    try reflexivity; discriminate.
Defined.

(** X3. When the append returned but its range holds no digit, [int]
    raises on the empty string: the reply is the 500 one with the text of
    that [ValueError], the appended row stays in the worksheet, and no
    entry is stored for it, so no scan can ever reach that row. *)
Theorem register_unreadable_range n r env st session rng :
  Py.strip n ≠ EmptyString →
  Py.strip r ≠ EmptyString →
  get_sheet env = true →
  append_row_result env = Py.Returns rng →
  Py.filter Py.isdigit rng = EmptyString →
  register (Some n) (Some r) env st session
  = (Reply [("status", JStr "error");
            ("message",
             JStr "Failed to save registration data: invalid literal for int() with base 10: ''")]
       500,
     mkState (WAITING_FOR_SCAN st)
       (sheet_calls st
        ++ [append_row [Py.strip r; Py.strip n; EmptyString; today env]
              (Py.Returns rng)]),
     session).
Proof.
  intros Hn%truthy_true Hr%truthy_true Hup Happ Hdig.
  unfold register. by rewrite Hn, Hr, Hup, Happ, Hdig.
Qed.

Lemma register_unreadable_range_witness :
  register (Some "Alice") (Some "R1")
    (mkEnv true (Py.Returns "Students") (Py.Returns tt) (Py.Returns None) 0
       "2025-03-01 09:00:00")
    (server two_waiting) no_session
  = (Reply [("status", JStr "error");
            ("message",
             JStr "Failed to save registration data: invalid literal for int() with base 10: ''")]
       500,
     mkState (waiting two_waiting)
       (sheet_calls (server two_waiting)
        ++ [append_row ["R1"; "Alice"; EmptyString; "2025-03-01 09:00:00"]
              (Py.Returns "Students")]),
     no_session).
Proof.
  apply (register_unreadable_range "Alice" "R1"
           (mkEnv true (Py.Returns "Students") (Py.Returns tt) (Py.Returns None) 0
              "2025-03-01 09:00:00")
           (server two_waiting) no_session "Students");
    try reflexivity; discriminate.
Defined.

(** ** Replies of [link_rfid] *)

(** X4. [link_rfid] ends in an exception that nothing catches exactly
    when the body is not a JSON object or its [rfid_uid] is not a string:
    [.get] or [.strip] is then called on a value that has no such method,
    before the [try].  The state and the session are as they were. *)
Theorem link_rfid_raises_iff_malformed data env st session :
  ((∃ exn, (link_rfid data env st session).1.1 = Uncaught exn)
   ↔ is_scan data = false)
  ∧ match data with
    | NotObject ty =>
        link_rfid data env st session
        = (Uncaught ("AttributeError: '" +:+ ty +:+
                     "' object has no attribute 'get'"), st, session)
    | Object (FOther ty) =>
        link_rfid data env st session
        = (Uncaught ("AttributeError: '" +:+ ty +:+
                     "' object has no attribute 'strip'"), st, session)
    | Object _ => True
    end.
Proof.
  split.
  - split.
    + intros [exn Hexn]. destruct (is_scan data) eqn:Hscan; [|done].
      exfalso.
      destruct (WAITING_FOR_SCAN st) as [|kv d] eqn:Hd.
      { by rewrite link_rfid_empty in Hexn. }
      destruct (oldest_is_oldest (WAITING_FOR_SCAN st)) as (k & e & Hk & Hold).
      { by rewrite Hd. }
      rewrite (link_rfid_scan data env st session k e Hscan Hk (proj1 Hold)) in Hexn.
      cbv zeta in Hexn.
      by destruct (link_uid_to_student _ _ _ _ _) as [[[] nm] st1].
    + intros Hscan.
      destruct (link_rfid_not_scan data env st session Hscan) as [exn ->]. eauto.
  - by destruct data as [[|s|ty]|ty].
Qed.

Lemma link_rfid_raises_iff_malformed_witness :
  ∃ exn,
    (link_rfid (Object (FOther "int")) (sheet_ok 20 "0" None) (server two_waiting)
       no_session).1.1 = Uncaught exn.
Proof.
  apply (proj2 (proj1 (link_rfid_raises_iff_malformed (Object (FOther "int"))
                         (sheet_ok 20 "0" None) (server two_waiting) no_session))).
  reflexivity.
Defined.

Lemma failed_reason_not_internal env row uid student st reason :
  (link_uid_to_student row uid student env st).1 = (false, reason) →
  failed_reply reason ≠ internal_error.
Proof.
  unfold link_uid_to_student.
  destruct (get_sheet env); simpl; [|by intros [= <-]].
  destruct (update_cell_result env); [|by intros [= <-]].
  destruct (cell_result env); [done | by intros [= <-]].
Qed.

(** X5. On a body that carries a code the replies of [link_rfid] split
    three ways and no other reply occurs: 404 exactly when the registry is
    empty, "linked" exactly when it is not and the persistence update
    succeeds, the 500 reply with the reason of [link_uid_to_student]
    exactly when it is not and the update fails.  With requests handled
    one at a time, the reply of the [except Exception] clause is never
    given. *)
Theorem link_rfid_replies data env st session :
  is_scan data = true →
  ((link_rfid data env st session).1.1 = no_active_session
   ↔ WAITING_FOR_SCAN st = [])
  ∧ ((∃ k result_name,
        (link_rfid data env st session).1.1 = linked_reply k result_name)
     ↔ WAITING_FOR_SCAN st ≠ [] ∧ persistence_succeeds env = true)
  ∧ ((∃ reason,
        (link_rfid data env st session).1.1 = failed_reply (Some reason))
     ↔ WAITING_FOR_SCAN st ≠ [] ∧ persistence_succeeds env = false)
  ∧ (link_rfid data env st session).1.1 ≠ internal_error.
Proof.
  intros Hscan.
  destruct (WAITING_FOR_SCAN st) as [|kv d] eqn:Hd.
  { rewrite link_rfid_empty by done. simpl.
    split_and!; try done.
    - split; [by intros (? & ? & ?) | by intros [? _]].
    - split; [by intros (? & ?) | by intros [? _]]. }
  destruct (oldest_is_oldest (WAITING_FOR_SCAN st)) as (k & e & Hk & Hold).
  { by rewrite Hd. }
  rewrite (link_rfid_scan data env st session k e Hscan Hk (proj1 Hold)).
  cbv zeta.
  destruct (persistence_succeeds env) eqn:Hok.
  - rewrite link_uid_to_student_ok by done. simpl.
    split_and!; try done.
    + split; [intros _; split; [done|done] | intros _; eauto].
    + split; [by intros (? & ?) | by intros [_ ?]].
  - destruct (link_uid_to_student_failed (row_index e) (scanned_code data)
                (name e) env st Hok) as [reason Hreason].
    pose proof (failed_reason_not_internal env (row_index e) (scanned_code data)
                  (name e) st (Some reason) Hreason) as Hni.
    destruct (link_uid_to_student _ _ _ _ _) as [[ok nm] st1].
    simpl in Hreason. injection Hreason as -> ->. simpl.
    split_and!; try done.
    + split; [by intros (? & ? & ?) | by intros [_ ?]].
    + split; [intros _; split; [done|done] | intros _; eauto].
Qed.

Lemma link_rfid_replies_witness :
  ((link_rfid (Object Absent) (sheet_raises 20) (server two_waiting) no_session).1.1
   = no_active_session
   ↔ waiting two_waiting = [])
  ∧ ((∃ k result_name,
        (link_rfid (Object Absent) (sheet_raises 20) (server two_waiting)
           no_session).1.1 = linked_reply k result_name)
     ↔ waiting two_waiting ≠ [] ∧ persistence_succeeds (sheet_raises 20) = true)
  ∧ ((∃ reason,
        (link_rfid (Object Absent) (sheet_raises 20) (server two_waiting)
           no_session).1.1 = failed_reply (Some reason))
     ↔ waiting two_waiting ≠ [] ∧ persistence_succeeds (sheet_raises 20) = false)
  ∧ (link_rfid (Object Absent) (sheet_raises 20) (server two_waiting)
       no_session).1.1 ≠ internal_error.
Proof.
  apply (link_rfid_replies (Object Absent) (sheet_raises 20) (server two_waiting)
           no_session).
  reflexivity.
Defined.

(** X6. A failure reply does not mean that nothing was written.  When
    [update_cell] returned and the read-back of the name raised, the scan
    is answered 500 with the text of that exception and the oldest entry
    stays in the registry, while the scanned code is in column 3 of its
    row; the next scan is resolved to the same entry and writes the same
    cell again. *)
Theorem link_rfid_write_then_read_failure data env st session exn :
  is_scan data = true →
  WAITING_FOR_SCAN st ≠ [] →
  get_sheet env = true →
  update_cell_result env = Py.Returns tt →
  cell_result env = Py.Raises exn →
  ∃ k entry,
    oldest (WAITING_FOR_SCAN st) = Some k
    ∧ Dict.get k (WAITING_FOR_SCAN st) = Some entry
    ∧ link_rfid data env st session
      = (failed_reply (Some ("Failed to update database. Error: " +:+ exn)),
         mkState (WAITING_FOR_SCAN st)
           (sheet_calls st
            ++ [update_cell (row_index entry) 3 (scanned_code data)
                  (Py.Returns tt)]),
         session)
    ∧ ∀ data2 env2 session2,
        is_scan data2 = true →
        get_sheet env2 = true →
        sheet_calls (link_rfid data2 env2 (link_rfid data env st session).1.2
                       session2).1.2
        = sheet_calls st
          ++ [update_cell (row_index entry) 3 (scanned_code data) (Py.Returns tt);
              update_cell (row_index entry) 3 (scanned_code data2)
                (update_cell_result env2)].
Proof.
  intros Hscan Hne Hup Hupd Hcell.
  destruct (oldest_is_oldest _ Hne) as (k & e & Hk & [He Hold]).
  exists k, e. split; [done|]. split; [done|].
  assert (link_rfid data env st session
          = (failed_reply (Some ("Failed to update database. Error: " +:+ exn)),
             mkState (WAITING_FOR_SCAN st)
               (sheet_calls st
                ++ [update_cell (row_index e) 3 (scanned_code data)
                      (Py.Returns tt)]),
             session)) as Hres.
  { rewrite (link_rfid_scan data env st session k e Hscan Hk He).
    unfold link_uid_to_student. by rewrite Hup, Hupd, Hcell. }
  split; [done|]. intros data2 env2 session2 Hscan2 Hup2.
  rewrite Hres. cbn [fst snd].
  set (st1 := mkState (WAITING_FOR_SCAN st)
                (sheet_calls st
                 ++ [update_cell (row_index e) 3 (scanned_code data)
                       (Py.Returns tt)])).
  rewrite (link_rfid_scan data2 env2 st1 session2 k e Hscan2 Hk He). cbv zeta.
  pose proof (link_uid_to_student_calls (row_index e) (scanned_code data2)
                (name e) env2 st1) as Hc.
  rewrite Hup2 in Hc. simpl in Hc.
  destruct (link_uid_to_student _ _ _ _ _) as [[[] nm] st2]; simpl in *;
    by rewrite Hc, <- app_assoc.
Qed.

Lemma link_rfid_write_then_read_failure_witness :
  ∃ k entry,
    oldest (waiting two_waiting) = Some k
    ∧ Dict.get k (waiting two_waiting) = Some entry
    ∧ link_rfid (Object (FStr "UID123"))
        (mkEnv true (Py.Returns "Students!A9") (Py.Returns tt)
           (Py.Raises "APIError 429") 20 "2025-03-01 09:00:00")
        (server two_waiting) no_session
      = (failed_reply (Some "Failed to update database. Error: APIError 429"),
         mkState (waiting two_waiting)
           (sheet_calls (server two_waiting)
            ++ [update_cell (row_index entry) 3 "UID123" (Py.Returns tt)]),
         no_session)
    ∧ ∀ data2 env2 session2,
        is_scan data2 = true →
        get_sheet env2 = true →
        sheet_calls
          (link_rfid data2 env2
             (link_rfid (Object (FStr "UID123"))
                (mkEnv true (Py.Returns "Students!A9") (Py.Returns tt)
                   (Py.Raises "APIError 429") 20 "2025-03-01 09:00:00")
                (server two_waiting) no_session).1.2
             session2).1.2
        = sheet_calls (server two_waiting)
          ++ [update_cell (row_index entry) 3 "UID123" (Py.Returns tt);
              update_cell (row_index entry) 3 (scanned_code data2)
                (update_cell_result env2)].
Proof.
  apply (link_rfid_write_then_read_failure (Object (FStr "UID123"))
           (mkEnv true (Py.Returns "Students!A9") (Py.Returns tt)
              (Py.Raises "APIError 429") 20 "2025-03-01 09:00:00")
           (server two_waiting) no_session "APIError 429");
    try reflexivity.
  vm_compute. discriminate.
Defined.

(** ** Polls and sessions *)

(** X7. A register number that is waiting is answered from the registry
    alone: the reply and the state are the same whatever session the poll
    comes with, the reply is "timeout" or "waiting", and a linked signal
    for that number held by the session is neither read nor used up. *)
Theorem check_status_registry_first reg_no env st s1 s2 :
  is_Some (Dict.get reg_no (WAITING_FOR_SCAN st)) →
  (check_status reg_no env st s1).1 = (check_status reg_no env st s2).1
  ∧ linked_reg_no (check_status reg_no env st s1).2 = linked_reg_no s1
  ∧ ((check_status reg_no env st s1).1.1 = timeout_reply
     ∨ (check_status reg_no env st s1).1.1 = still_waiting).
Proof.
  intros [entry Hg]. rewrite !(check_status_bound _ _ _ _ _ Hg).
  destruct (is_expired entry (clock env)); simpl; auto.
Qed.

Lemma check_status_registry_first_witness :
  (check_status "R1" (sheet_ok 20 "0" None) (server two_waiting)
     (mkSession None (Some "R1"))).1
  = (check_status "R1" (sheet_ok 20 "0" None) (server two_waiting) no_session).1
  ∧ linked_reg_no
      (check_status "R1" (sheet_ok 20 "0" None) (server two_waiting)
         (mkSession None (Some "R1"))).2
    = Some "R1"
  ∧ ((check_status "R1" (sheet_ok 20 "0" None) (server two_waiting)
        (mkSession None (Some "R1"))).1.1 = timeout_reply
     ∨ (check_status "R1" (sheet_ok 20 "0" None) (server two_waiting)
          (mkSession None (Some "R1"))).1.1 = still_waiting).
Proof.
  apply (check_status_registry_first "R1" (sheet_ok 20 "0" None)
           (server two_waiting) (mkSession None (Some "R1")) no_session).
  vm_compute. eauto.
Defined.

(** X8. A poll never calls the worksheet and never raises.  Its result
    depends on the environment through the clock only, so it is the same
    with the worksheet out of reach; the HTTP status is 408 in the timeout
    reply and 200 in every other. *)
Theorem check_status_needs_no_worksheet reg_no env env' st session :
  clock env' = clock env →
  check_status reg_no env' st session = check_status reg_no env st session
  ∧ sheet_calls (check_status reg_no env st session).1.2 = sheet_calls st
  ∧ ((check_status reg_no env st session).1.1 = timeout_reply
     ∧ http_of (check_status reg_no env st session).1.1 = Some 408%N
     ∨ (check_status reg_no env st session).1.1 ≠ timeout_reply
       ∧ http_of (check_status reg_no env st session).1.1 = Some 200%N).
Proof.
  intros Hclock. unfold check_status. rewrite Hclock.
  split; [done|].
  destruct (Dict.get reg_no (WAITING_FOR_SCAN st)) as [entry|].
  - destruct (Qltb _ _); simpl; (split; [done|]); [left | right]; by split.
  - case_decide; simpl; (split; [done|]); right; by split.
Qed.

Lemma check_status_needs_no_worksheet_witness :
  check_status "R1" (sheet_down 301) (server two_waiting) no_session
  = check_status "R1" (sheet_ok 301 "0" None) (server two_waiting) no_session
  ∧ sheet_calls
      (check_status "R1" (sheet_ok 301 "0" None) (server two_waiting)
         no_session).1.2
    = sheet_calls (server two_waiting)
  ∧ ((check_status "R1" (sheet_ok 301 "0" None) (server two_waiting)
        no_session).1.1 = timeout_reply
     ∧ http_of (check_status "R1" (sheet_ok 301 "0" None) (server two_waiting)
                  no_session).1.1 = Some 408%N
     ∨ (check_status "R1" (sheet_ok 301 "0" None) (server two_waiting)
          no_session).1.1 ≠ timeout_reply
       ∧ http_of (check_status "R1" (sheet_ok 301 "0" None) (server two_waiting)
                    no_session).1.1 = Some 200%N).
Proof.
  apply (check_status_needs_no_worksheet "R1" (sheet_ok 301 "0" None)
           (sheet_down 301) (server two_waiting) no_session).
  reflexivity.
Defined.

(** X9. The session key ['waiting_reg_no'] is written by [register] and
    cleared by the timeout reply, and no handler reads it: with any other
    value under that key, every request gets the same reply, leaves the
    same state and leaves the same linked signal. *)
Theorem waiting_reg_no_is_never_read req env st session v :
  (handle req env st (with_waiting_reg_no v session)).1
  = (handle req env st session).1
  ∧ linked_reg_no (handle req env st (with_waiting_reg_no v session)).2
    = linked_reg_no (handle req env st session).2.
Proof.
  destruct req as [n r|reg_no|data]; simpl.
  - unfold register.
    destruct n as [n'|]; [|done]. destruct r as [r'|]; [|done].
    destruct (negb _ || negb _); [done|].
    destruct (negb _); [done|].
    destruct (append_row_result env) as [rng|e]; [|done].
    by destruct (Py.int _).
  - unfold check_status.
    destruct (Dict.get reg_no (WAITING_FOR_SCAN st)) as [entry|].
    + by destruct (Qltb _ _).
    + simpl. by case_decide.
  - unfold link_rfid.
    destruct data as [[|s|ty]|ty]; try done;
      (destruct (WAITING_FOR_SCAN st) as [|kv d]; [done|]);
      (destruct (py_min _ _) as [k|]; [|done]);
      (destruct (Dict.get k _) as [e|]; [|done]);
      by destruct (link_uid_to_student _ _ _ _ _) as [[[] nm] st1].
Qed.

(** ** How the requests compose *)

(** What a linked reply tells about the step that gave it. *)
Lemma step_linked w c data env k result_name :
  (step w c (POST_link_rfid data) env).1 = linked_reply k result_name →
  is_Some (Dict.get k (waiting w))
  ∧ waiting (step w c (POST_link_rfid data) env).2 = Dict.pop k (waiting w)
  ∧ linked_reg_no (session_of (step w c (POST_link_rfid data) env).2 c) = Some k.
Proof.
  intros Hout. unfold waiting.
  rewrite server_step, session_step_eq. rewrite outcome_step in Hout.
  simpl in *.
  destruct (link_rfid_cases data env (server w) (session_of w c))
    as [(_ & Hst)|(k0 & e0 & [He0 _] & _ & _ & Heq)].
  - rewrite Hout in Hst. done.
  - rewrite Heq in Hout |- *. simpl in *.
    apply linked_reply_key in Hout as ->. eauto.
Qed.

(** X10. The linked signal is one slot per session.  When the same
    caller posts two scans that are both linked, to [k1] and then to [k2],
    the two register numbers differ and the slot holds [k2] only: a poll
    for [k1] with that session is answered "Session expired or invalid.",
    a poll for [k2] is answered "linked". *)
Theorem second_scan_overwrites_signal w c data1 env1 data2 env2 k1 k2 nm1 nm2 env3 :
  Dict.wf (waiting w) →
  (step w c (POST_link_rfid data1) env1).1 = linked_reply k1 nm1 →
  (step (step w c (POST_link_rfid data1) env1).2 c (POST_link_rfid data2) env2).1
  = linked_reply k2 nm2 →
  k1 ≠ k2
  ∧ (step (step (step w c (POST_link_rfid data1) env1).2 c
             (POST_link_rfid data2) env2).2 c (GET_check_status k1) env3).1
    = session_expired
  ∧ (step (step (step w c (POST_link_rfid data1) env1).2 c
             (POST_link_rfid data2) env2).2 c (GET_check_status k2) env3).1
    = card_linked.
Proof.
  intros Hwf H1 H2.
  set (w1 := (step w c (POST_link_rfid data1) env1).2) in *.
  set (w2 := (step w1 c (POST_link_rfid data2) env2).2) in *.
  destruct (step_linked w c data1 env1 k1 nm1 H1) as (_ & Hw1 & _).
  destruct (step_linked w1 c data2 env2 k2 nm2 H2) as (Hin2 & Hw2 & Hsig).
  fold w1 in Hw1. fold w2 in Hw2, Hsig.
  assert (Dict.get k1 (waiting w1) = None) as Hgone1
    by (rewrite Hw1; by apply get_pop_eq).
  assert (k1 ≠ k2) as Hne.
  { intros ->. rewrite Hgone1 in Hin2. by destruct Hin2. }
  assert (Dict.get k1 (waiting w2) = None) as Hg1
    by (rewrite Hw2; by apply get_pop_None).
  assert (Dict.get k2 (waiting w2) = None) as Hg2.
  { rewrite Hw2. apply get_pop_eq. rewrite Hw1. by apply wf_pop. }
  split; [done|]. unfold waiting in Hg1, Hg2.
  rewrite !outcome_step. simpl.
  rewrite (check_status_absent _ _ _ _ Hg1), (check_status_absent _ _ _ _ Hg2).
  rewrite Hsig. split.
  - rewrite decide_False; [done|]. congruence.
  - by rewrite decide_True.
Qed.

Lemma second_scan_overwrites_signal_witness :
  "R1" ≠ "R2"
  ∧ (step (step (step two_waiting scanner (POST_link_rfid (Object (FStr "UID1")))
                   (sheet_ok 20 "0" (Some "Alice"))).2 scanner
             (POST_link_rfid (Object (FStr "UID2")))
             (sheet_ok 21 "0" (Some "Bob"))).2 scanner
       (GET_check_status "R1") (sheet_ok 22 "0" None)).1
    = session_expired
  ∧ (step (step (step two_waiting scanner (POST_link_rfid (Object (FStr "UID1")))
                   (sheet_ok 20 "0" (Some "Alice"))).2 scanner
             (POST_link_rfid (Object (FStr "UID2")))
             (sheet_ok 21 "0" (Some "Bob"))).2 scanner
       (GET_check_status "R2") (sheet_ok 22 "0" None)).1
    = card_linked.
Proof.
  apply (second_scan_overwrites_signal two_waiting scanner
           (Object (FStr "UID1")) (sheet_ok 20 "0" (Some "Alice"))
           (Object (FStr "UID2")) (sheet_ok 21 "0" (Some "Bob"))
           "R1" "R2" (Some "Alice") (Some "Bob") (sheet_ok 22 "0" None)).
  - decide_by_eval.
  - vm_compute. reflexivity.
  - vm_compute. reflexivity.
Defined.

(** Where an entry found after a request comes from. *)
Lemma handle_entry_origin req env st session k entry :
  Dict.wf (WAITING_FOR_SCAN st) →
  Dict.get k (WAITING_FOR_SCAN (handle req env st session).1.2) = Some entry →
  Dict.get k (WAITING_FOR_SCAN st) = Some entry
  ∨ ∃ n r idx,
      req = POST_register (Some n) (Some r)
      ∧ Py.strip r = k
      ∧ entry = mkPending (Py.strip n) (clock env) idx
      ∧ status_of (handle req env st session).1.1 = Some (JStr "waiting").
Proof.
  intros Hwf Hg. destruct req as [n r|reg_no|data]; simpl in *.
  - destruct (register_cases n r env st session)
      as [(Heq & _)|(n' & r' & rng & idx & -> & -> & _ & _ & _ & _ & _ & Heq)];
      rewrite Heq in Hg; [by left|].
    simpl in Hg. destruct (decide (Py.strip r' = k)) as [Hk|Hk].
    + right. exists n', r', idx. subst k. rewrite get_set_eq in Hg.
      injection Hg as <-. by rewrite Heq.
    + left. by rewrite get_set_ne in Hg.
  - left.
    destruct (check_status_cases reg_no env st session)
      as [_ [(Heq & _)|(e0 & _ & _ & Heq)]];
      rewrite Heq in Hg; [done|]. simpl in Hg. by apply get_pop_Some in Hg.
  - left.
    destruct (link_rfid_cases data env st session)
      as [(Heq & _)|(k0 & e0 & _ & _ & _ & Heq)];
      rewrite Heq in Hg; [done|]. simpl in Hg. by apply get_pop_Some in Hg.
Qed.

(** X11. Entries come from [register] only, and only [register] of a
    register number changes what is stored under it: an entry found after
    a request was there before it, unchanged, unless the request is a
    registration of that very number that went through, in which case the
    entry holds the trimmed name and the clock reading of that request. *)
Theorem entries_come_from_register req env st session k entry :
  Dict.wf (WAITING_FOR_SCAN st) →
  Dict.get k (WAITING_FOR_SCAN (handle req env st session).1.2) = Some entry →
  Dict.get k (WAITING_FOR_SCAN st) = Some entry
  ∨ ∃ n r idx,
      req = POST_register (Some n) (Some r)
      ∧ Py.strip r = k
      ∧ entry = mkPending (Py.strip n) (clock env) idx
      ∧ status_of (handle req env st session).1.1 = Some (JStr "waiting").
Proof. apply handle_entry_origin. Qed.

Lemma entries_come_from_register_witness :
  Dict.get "R2" (waiting two_waiting) = Some (mkPending "Bob" 10 3)
  ∨ ∃ n r idx,
      POST_link_rfid (Object (FStr "UID123")) = POST_register (Some n) (Some r)
      ∧ Py.strip r = "R2"
      ∧ mkPending "Bob" 10 3 = mkPending (Py.strip n) (clock (sheet_ok 20 "0" None)) idx
      ∧ status_of (handle (POST_link_rfid (Object (FStr "UID123")))
                     (sheet_ok 20 "0" None) (server two_waiting) no_session).1.1
        = Some (JStr "waiting").
Proof.
  apply (entries_come_from_register (POST_link_rfid (Object (FStr "UID123")))
           (sheet_ok 20 "0" None) (server two_waiting) no_session "R2"
           (mkPending "Bob" 10 3)).
  - decide_by_eval.
  - vm_compute. reflexivity.
Defined.

(** X12. The timeout runs from the latest registration of a register
    number that went through.  Whatever was stored under the number
    before, a poll that follows the registration is answered "timeout"
    exactly when the float difference between its clock reading and the one
    of that registration, as line 130 computes it, is above 300, and
    "waiting" otherwise; in particular it is answered "waiting" whenever
    the exact difference is at most 300 seconds. *)
Theorem register_restarts_timeout n r env st session rng idx env2 session2 :
  Py.strip n ≠ EmptyString →
  Py.strip r ≠ EmptyString →
  get_sheet env = true →
  append_row_result env = Py.Returns rng →
  Py.int (Py.filter Py.isdigit rng) = Py.Returns idx →
  check_status (Py.strip r) env2 (register (Some n) (Some r) env st session).1.2
    session2
  = (if Qltb TIMEOUT_SECONDS (Float.sub (clock env2) (clock env))
     then (timeout_reply,
           with_waiting
             (Dict.pop (Py.strip r)
                (WAITING_FOR_SCAN (register (Some n) (Some r) env st session).1.2))
             (register (Some n) (Some r) env st session).1.2,
           mkSession None (linked_reg_no session2))
     else (still_waiting, (register (Some n) (Some r) env st session).1.2,
           session2))
  ∧ ((clock env2 - clock env <= TIMEOUT_SECONDS)%Q →
     Qltb TIMEOUT_SECONDS (Float.sub (clock env2) (clock env)) = false).
Proof.
  intros Hn Hr Hup Happ Hidx. split.
  - rewrite (register_success n r env st session rng idx Hn Hr Hup Happ Hidx).
    cbn [fst snd].
    rewrite (check_status_bound _ (mkPending (Py.strip n) (clock env) idx));
      [reflexivity|]. simpl. apply get_set_eq.
  - intros Hle. apply Qltb_ge. by apply float_sub_le_timeout.
Qed.

Lemma register_restarts_timeout_witness :
  check_status "R1" (sheet_ok 400 "0" None)
    (register (Some "Alice") (Some "R1") (sheet_ok 200 "9" None)
       (server two_waiting) no_session).1.2
    no_session
  = (still_waiting,
     (register (Some "Alice") (Some "R1") (sheet_ok 200 "9" None)
        (server two_waiting) no_session).1.2,
     no_session)
  ∧ ((400 - 200 <= TIMEOUT_SECONDS)%Q →
     Qltb TIMEOUT_SECONDS (Float.sub 400 200) = false).
Proof.
  apply (register_restarts_timeout "Alice" "R1" (sheet_ok 200 "9" None)
           (server two_waiting) no_session "Students!A9" 9%N
           (sheet_ok 400 "0" None) no_session);
    try reflexivity; discriminate.
Defined.

(** X13. Registration and scan, end to end.  On an empty registry, a
    registration that goes through followed by a scan whose persistence
    update succeeds links that registration: the scan is answered
    "linked" with the trimmed register number, the trimmed code is written
    to column 3 of the row read off the append, the registry is empty
    again and the session of the scan holds the linked signal. *)
Theorem register_then_scan n r env st session rng idx data env2 session2 :
  WAITING_FOR_SCAN st = [] →
  Py.strip n ≠ EmptyString →
  Py.strip r ≠ EmptyString →
  get_sheet env = true →
  append_row_result env = Py.Returns rng →
  Py.int (Py.filter Py.isdigit rng) = Py.Returns idx →
  is_scan data = true →
  persistence_succeeds env2 = true →
  link_rfid data env2 (register (Some n) (Some r) env st session).1.2 session2
  = (linked_reply (Py.strip r) (read_back env2),
     mkState []
       (sheet_calls st
        ++ [append_row [Py.strip r; Py.strip n; EmptyString; today env]
              (Py.Returns rng);
            update_cell idx 3 (scanned_code data) (Py.Returns tt)]),
     mkSession (waiting_reg_no session2) (Some (Py.strip r))).
Proof.
  intros Hnil Hn Hr Hup Happ Hidx Hscan Hok.
  rewrite (register_success n r env st session rng idx Hn Hr Hup Happ Hidx).
  cbn [fst snd]. rewrite Hnil. cbn [Dict.set].
  rewrite (link_rfid_scan data env2 _ session2 (Py.strip r)
             (mkPending (Py.strip n) (clock env) idx) Hscan).
  - rewrite link_uid_to_student_ok by done. cbn.
    rewrite decide_True by done. unfold with_waiting, log. simpl.
    by rewrite <- app_assoc.
  - reflexivity.
  - simpl. by rewrite decide_True.
Qed.

Lemma register_then_scan_witness :
  link_rfid (Object (FStr " UID123 ")) (sheet_ok 1 "0" (Some "Alice"))
    (register (Some "Alice") (Some "R1") (sheet_ok 0 "2" None) (server boot)
       no_session).1.2
    no_session
  = (linked_reply "R1" (Some "Alice"),
     mkState []
       [append_row ["R1"; "Alice"; EmptyString; "2025-03-01 09:00:00"]
          (Py.Returns "Students!A2");
        update_cell 2 3 "UID123" (Py.Returns tt)],
     mkSession None (Some "R1")).
Proof.
  apply (register_then_scan "Alice" "R1" (sheet_ok 0 "2" None) (server boot)
           no_session "Students!A2" 2%N (Object (FStr " UID123 "))
           (sheet_ok 1 "0" (Some "Alice")) no_session);
    try reflexivity; discriminate.
Defined.

(** ** What holds of every state the server reaches *)

Lemma run_induction (P : State → Prop) :
  (∀ req env st session,
     Dict.wf (WAITING_FOR_SCAN st) → all_backed st → P st →
     P (handle req env st session).1.2) →
  ∀ evs w,
    Dict.wf (waiting w) → all_backed (server w) → P (server w) →
    P (server (run w evs)).
Proof.
  intros Hstep. induction evs as [|ev evs IH]; intros w Hwf Hb HP; [done|].
  simpl. apply IH; unfold waiting; rewrite server_after.
  - by apply handle_wf.
  - by apply handle_backed.
  - by apply Hstep.
Qed.

Lemma handle_entries_trimmed req env st session :
  Dict.wf (WAITING_FOR_SCAN st) →
  entries_trimmed st → entries_trimmed (handle req env st session).1.2.
Proof.
  intros Hwf Htr k e Hg.
  destruct (handle_entry_origin req env st session k e Hwf Hg)
    as [Hold|(n & r & idx & Hreq & <- & -> & Hst)]; [by apply Htr|].
  subst req. simpl in *.
  destruct (register_cases (Some n) (Some r) env st session)
    as [(_ & Hno & _)|(n' & r' & _ & _ & [= <-] & [= <-] & Hn & Hr & _)];
    [done|].
  split; by apply strip_trimmed.
Qed.

(** X14. On every state the server reaches, every entry of the registry
    is stored under a register number that is not empty and has no
    whitespace at either end, and carries a name of the same kind: what
    the form sent is trimmed before it is tested and stored. *)
Theorem registry_holds_trimmed_entries evs k entry :
  Dict.get k (waiting (run boot evs)) = Some entry →
  (k ≠ EmptyString ∧ Py.strip k = k)
  ∧ (name entry ≠ EmptyString ∧ Py.strip (name entry) = name entry).
Proof.
  revert k entry.
  apply (run_induction entries_trimmed); try apply boot_invariant.
  - intros req env st session Hwf _. by apply handle_entries_trimmed.
  - intros k e Hg. discriminate.
Qed.

Lemma registry_holds_trimmed_entries_witness :
  ("R2" ≠ EmptyString ∧ Py.strip "R2" = "R2")
  ∧ (name (mkPending "Bob" 10 3) ≠ EmptyString
     ∧ Py.strip (name (mkPending "Bob" 10 3)) = name (mkPending "Bob" 10 3)).
Proof.
  apply (registry_holds_trimmed_entries [register_alice; register_bob] "R2"
           (mkPending "Bob" 10 3)).
  vm_compute. reflexivity.
Defined.

Lemma scanned_code_stripped data : Py.strip (scanned_code data) = scanned_code data.
Proof. destruct data as [[|s|ty]|ty]; try done. apply strip_idem. Qed.

(** The calls a request adds to the worksheet: none, or one that is as
    [call_ok] says. *)
Lemma handle_adds_call req env st session :
  all_backed st →
  sheet_calls (handle req env st session).1.2 = sheet_calls st
  ∨ ∃ c, sheet_calls (handle req env st session).1.2 = sheet_calls st ++ [c]
         ∧ call_ok (sheet_calls st) c.
Proof.
  intros Hb. destruct req as [n r|reg_no|data]; simpl.
  - unfold register.
    destruct n as [n'|]; [|by left]. destruct r as [r'|]; [|by left].
    destruct (Py.truthy (Py.strip n')) eqn:Hn; [|by left].
    destruct (Py.truthy (Py.strip r')) eqn:Hr; [|by left].
    apply truthy_true in Hn, Hr. simpl.
    destruct (get_sheet env); [|by left]. simpl.
    assert (∀ res, call_ok (sheet_calls st)
                     (append_row [Py.strip r'; Py.strip n'; EmptyString; today env]
                        res)) as Hok.
    { intros res. exists (Py.strip r'), (Py.strip n'), (today env).
      split; [done|]. split; by apply strip_trimmed. }
    destruct (append_row_result env) as [rng|e]; [|right; by eexists].
    destruct (Py.int _); right; by eexists.
  - left. apply check_status_cases.
  - destruct (is_scan data) eqn:Hscan.
    2: { left. by destruct (link_rfid_not_scan data env st session Hscan) as [x ->]. }
    destruct (WAITING_FOR_SCAN st) as [|kv d] eqn:Hd.
    { left. by rewrite link_rfid_empty. }
    destruct (oldest_is_oldest (WAITING_FOR_SCAN st)) as (k & e & Hk & [He _]).
    { by rewrite Hd. }
    rewrite (link_rfid_scan data env st session k e Hscan Hk He). cbv zeta.
    pose proof (link_uid_to_student_calls (row_index e) (scanned_code data)
                  (name e) env st) as Hc.
    assert (sheet_calls
              (if (link_uid_to_student (row_index e) (scanned_code data)
                     (name e) env st).1.1
               then (linked_reply k
                       (link_uid_to_student (row_index e) (scanned_code data)
                          (name e) env st).1.2,
                     with_waiting
                       (Dict.pop k
                          (WAITING_FOR_SCAN
                             (link_uid_to_student (row_index e)
                                (scanned_code data) (name e) env st).2))
                       (link_uid_to_student (row_index e) (scanned_code data)
                          (name e) env st).2,
                     mkSession (waiting_reg_no session) (Some k))
               else (failed_reply
                       (link_uid_to_student (row_index e) (scanned_code data)
                          (name e) env st).1.2,
                     (link_uid_to_student (row_index e) (scanned_code data)
                        (name e) env st).2, session)).1.2
            = sheet_calls
                (link_uid_to_student (row_index e) (scanned_code data)
                   (name e) env st).2) as ->.
    { by destruct (link_uid_to_student _ _ _ _ _) as [[[] nm] st1]. }
    rewrite Hc. destruct (get_sheet env); [|by left].
    right. eexists. split; [done|]. simpl.
    split; [done|]. split; [apply scanned_code_stripped|].
    destruct (Hb k e He) as (date & rng & Hin & Hidx). eauto.
Qed.

Lemma handle_log_ok req env st session :
  all_backed st →
  log_ok (sheet_calls st) → log_ok (sheet_calls (handle req env st session).1.2).
Proof.
  intros Hb Hlog.
  destruct (handle_adds_call req env st session Hb) as [->|(c & -> & Hc)];
    [done|].
  intros i c0 Hi.
  destruct (decide (i < length (sheet_calls st))%nat) as [Hlt|Hge].
  - rewrite lookup_app_l in Hi by done.
    rewrite take_app_le by lia. by apply Hlog.
  - rewrite lookup_app_r in Hi by lia.
    destruct (i - length (sheet_calls st))%nat as [|j] eqn:Hj; [|done].
    injection Hi as <-.
    assert (i = length (sheet_calls st)) as -> by lia.
    by rewrite take_app_length.
Qed.

(** X15. The writes recorded on the worksheet, on every state the server
    reaches.  An append has the four cells register number, name, empty
    string, date, the first two trimmed and not empty.  An update writes
    column 3, with a code that has no whitespace at either end, on the row
    index that [register] read off the digits of the range of an append
    that returned earlier. *)
Theorem worksheet_calls_are_well_formed evs i c :
  sheet_calls (server (run boot evs)) !! i = Some c →
  match c with
  | append_row row _ =>
      ∃ r n d, row = [r; n; EmptyString; d]
               ∧ (r ≠ EmptyString ∧ Py.strip r = r)
               ∧ (n ≠ EmptyString ∧ Py.strip n = n)
  | update_cell row col v _ =>
      col = 3%N ∧ Py.strip v = v
      ∧ ∃ cells rng,
          append_row cells (Py.Returns rng)
            ∈ take i (sheet_calls (server (run boot evs)))
          ∧ Py.int (Py.filter Py.isdigit rng) = Py.Returns row
  end.
Proof.
  revert i c.
  apply (run_induction (λ st, log_ok (sheet_calls st))); try apply boot_invariant.
  - intros req env st session _ Hb. by apply handle_log_ok.
  - intros i c Hi. simpl in Hi. by rewrite lookup_nil in Hi.
Qed.

Lemma worksheet_calls_are_well_formed_witness :
  3%N = 3%N ∧ Py.strip "UID123" = "UID123"
  ∧ ∃ cells rng,
      append_row cells (Py.Returns rng)
        ∈ take 1 (sheet_calls (server alice_linked))
      ∧ Py.int (Py.filter Py.isdigit rng) = Py.Returns 2%N.
Proof.
  apply (worksheet_calls_are_well_formed
           [register_alice; scan_uid123 1 (Some "Alice")] 1
           (update_cell 2 3 "UID123" (Py.Returns tt))).
  vm_compute. reflexivity.
Defined.

(** ** First come, first served *)

Lemma keys_pop_perm {V} (k : string) (d : Dict.dict V) :
  is_Some (Dict.get k d) → Dict.keys d ≡ₚ k :: Dict.keys (Dict.pop k d).
Proof.
  unfold Dict.keys. induction d as [|[k0 v0] d IH]; simpl.
  - intros [? ?]; discriminate.
  - case_decide as Hk; subst; simpl; [done|].
    intros Hin. rewrite (IH Hin) at 1. apply Permutation_swap.
Qed.

Lemma timestamp_of_pop d k k' :
  k ≠ k' → timestamp_of (Dict.pop k d) k' = timestamp_of d k'.
Proof. intros Hne. unfold timestamp_of. by rewrite get_pop_ne. Qed.

(** A scan with a code and a working worksheet, on a registry that is not
    empty. *)
Lemma step_good_scan w ev :
  is_good_scan ev → waiting w ≠ [] →
  ∃ k, oldest (waiting w) = Some k
       ∧ is_Some (Dict.get k (waiting w))
       ∧ (step w (caller ev) (request ev) (environment ev)).1
         = linked_reply k (read_back (environment ev))
       ∧ waiting (after w ev) = Dict.pop k (waiting w).
Proof.
  intros (data & Hreq & Hscan & Hok) Hne.
  destruct (oldest_is_oldest _ Hne) as (k & e & Hk & [He _]).
  exists k. split; [done|]. split; [eauto|].
  unfold after, waiting in *. rewrite outcome_step, server_step, Hreq. simpl.
  rewrite (link_rfid_scan data _ _ _ k e Hscan Hk He).
  by rewrite link_uid_to_student_ok.
Qed.

(** X16. First come, first served, to the end.  On a registry of [n]
    entries, [n] scans in a row whose persistence updates succeed are all
    answered "linked"; the register numbers they name are those of the
    registry, each once, in the order of their timestamps (a scan never
    links a registration that arrived after one still waiting); and the
    registry ends empty. *)
Theorem scans_resolve_in_arrival_order evs w :
  Dict.wf (waiting w) →
  Forall is_good_scan evs →
  length evs = length (waiting w) →
  ∃ ks,
    Forall2 (λ out k, ∃ result_name, out = linked_reply k result_name)
      (replies w evs) ks
    ∧ ks ≡ₚ Dict.keys (waiting w)
    ∧ (∀ i j ki kj,
         (i < j)%nat → ks !! i = Some ki → ks !! j = Some kj →
         (timestamp_of (waiting w) ki <= timestamp_of (waiting w) kj)%Q)
    ∧ waiting (run w evs) = [].
Proof.
  revert w. induction evs as [|ev evs IH]; intros w Hwf Hgood Hlen.
  - exists []. simpl in *.
    destruct (waiting w) eqn:Hw; [|done].
    split; [constructor|]. split; [done|]. split; [|done].
    intros i j ki kj _ Hi. by rewrite lookup_nil in Hi.
  - apply Forall_cons in Hgood as [Hev Hgood].
    assert (waiting w ≠ []) as Hne by (intros Hnil; by rewrite Hnil in Hlen).
    destruct (step_good_scan w ev Hev Hne) as (k & Hk & Hin & Hout & Hpop).
    destruct (IH (after w ev)) as (ks & Hall & Hperm & Hsort & Hend).
    { rewrite Hpop. by apply wf_pop. }
    { done. }
    { rewrite Hpop. simpl in Hlen.
      pose proof (length_pop k (waiting w) Hin). lia. }
    rewrite Hpop in Hperm, Hsort.
    assert (∀ k', k' ∈ ks → k ≠ k' ∧ k' ∈ Dict.keys (waiting w)) as Hks.
    { intros k' Hk'. rewrite Hperm in Hk'. split.
      - intros <-. apply get_is_Some_keys in Hk'.
        rewrite get_pop_eq in Hk' by done. by destruct Hk'.
      - by apply (keys_pop_subseteq k). }
    exists (k :: ks). split_and!.
    + simpl. constructor; [eauto | done].
    + rewrite Hperm. symmetry. by apply keys_pop_perm.
    + intros i j ki kj Hij Hi Hj.
      destruct j as [|j]; [lia|]. simpl in Hj.
      assert (kj ∈ ks) as Hkj by (apply list_elem_of_lookup; eauto).
      destruct (Hks kj Hkj) as [Hne_j Hin_j].
      destruct i as [|i]; simpl in Hi.
      * injection Hi as <-. by apply (py_min_le _ _ _ _ Hk).
      * assert (ki ∈ ks) as Hki by (apply list_elem_of_lookup; eauto).
        destruct (Hks ki Hki) as [Hne_i _].
        rewrite <- (timestamp_of_pop (waiting w) k ki Hne_i).
        rewrite <- (timestamp_of_pop (waiting w) k kj Hne_j).
        apply (Hsort i j); [lia | done | done].
    + done.
Qed.

Lemma scans_resolve_in_arrival_order_witness :
  ∃ ks,
    Forall2 (λ out k, ∃ result_name, out = linked_reply k result_name)
      (replies two_waiting
         [scan_uid123 20 (Some "Alice"); scan_uid123 21 (Some "Bob")]) ks
    ∧ ks ≡ₚ Dict.keys (waiting two_waiting)
    ∧ (∀ i j ki kj,
         (i < j)%nat → ks !! i = Some ki → ks !! j = Some kj →
         (timestamp_of (waiting two_waiting) ki
          <= timestamp_of (waiting two_waiting) kj)%Q)
    ∧ waiting (run two_waiting
                 [scan_uid123 20 (Some "Alice"); scan_uid123 21 (Some "Bob")])
      = [].
Proof.
  apply (scans_resolve_in_arrival_order
           [scan_uid123 20 (Some "Alice"); scan_uid123 21 (Some "Bob")]
           two_waiting).
  - decide_by_eval.
  - repeat constructor; eexists; split_and!; reflexivity.
  - reflexivity.
Defined.

(** ** The replies, as a client sees them *)

(** X17. For a [/register] form, a [/check_status] path and a
    [/link_rfid] body that [get_json] decoded, whatever the state and the
    environment: the handler either replies with a body whose ["status"]
    is one of "waiting", "linked", "timeout" and "error", or ends in the
    uncaught [AttributeError] of a [.strip()] or [.get()], and the latter
    only on a registration that lacks a form field or on a decoded body
    that is not an object or whose [rfid_uid] is not a string.  "waiting"
    and "linked" come with HTTP status 200, "timeout" with 408, "error"
    with 200, 404 or 500. *)
Theorem reply_contract req env st session :
  match (handle req env st session).1.1 with
  | Uncaught _ =>
      (∃ n r, req = POST_register n r ∧ (n = None ∨ r = None))
      ∨ (∃ data, req = POST_link_rfid data ∧ is_scan data = false)
  | Reply body http =>
      ∃ s, status_of (Reply body http) = Some (JStr s)
           ∧ ((s = "waiting" ∧ http = 200%N)
              ∨ (s = "linked" ∧ http = 200%N)
              ∨ (s = "timeout" ∧ http = 408%N)
              ∨ (s = "error" ∧ (http = 200 ∨ http = 404 ∨ http = 500)%N))
  end.
Proof.
  destruct req as [n r|reg_no|data]; simpl.
  - unfold register.
    destruct n as [n'|]; [|left; eauto]. destruct r as [r'|]; [|left; eauto].
    destruct (negb _ || negb _); [eexists; split; [reflexivity|]; auto 10|].
    destruct (negb _); [eexists; split; [reflexivity|]; auto 10|].
    destruct (append_row_result env) as [rng|e];
      [|eexists; split; [reflexivity|]; auto 10].
    destruct (Py.int _); eexists; (split; [reflexivity|]); auto 10.
  - unfold check_status.
    destruct (Dict.get reg_no (WAITING_FOR_SCAN st)) as [entry|].
    + destruct (Qltb _ _); eexists; (split; [reflexivity|]); auto 10.
    + case_decide; eexists; (split; [reflexivity|]); auto 10.
  - destruct (is_scan data) eqn:Hscan.
    2: { destruct (link_rfid_not_scan data env st session Hscan) as [x ->].
         right. eauto. }
    destruct (WAITING_FOR_SCAN st) as [|kv d] eqn:Hd.
    { rewrite link_rfid_empty by done.
      eexists; (split; [reflexivity|]); auto 10. }
    destruct (oldest_is_oldest (WAITING_FOR_SCAN st)) as (k & e & Hk & [He _]).
    { by rewrite Hd. }
    rewrite (link_rfid_scan data env st session k e Hscan Hk He). cbv zeta.
    destruct (link_uid_to_student _ _ _ _ _) as [[[] nm] st1];
      eexists; (split; [reflexivity|]); auto 10.
Qed.
